(** * Longitudinal vehicle model (Course1FinalProject/Longitudinal_Vehicle_Model.ipynb)

    A shallow embedding of the notebook's [Vehicle] class ([__init__], [reset],
    [step]) and of its incline helper [alpha], with the properties of the
    written specification stated over it.

    Numbers.  The notebook computes with IEEE binary64 values, which are Rocq's
    primitive floats.  A value is either a Python number ([Py]: a Python float,
    or a Python int, kept as the double of the same value; the ints of the
    notebook are small literals, and every arithmetic operation of [step] has a
    float operand) or a [numpy.float64] ([Np]: what [np.sin], [np.cos] and
    [np.arctan] return, and what any operation with a [numpy.float64] operand
    returns).  The two differ where the claims need it: dividing Python numbers
    by zero raises [ZeroDivisionError], dividing with a [numpy.float64] operand
    returns an infinity or a NaN (with a warning, which is not an exception).

    Statements.  An assignment mutates the object in place and an exception
    leaves the assignments made so far: a statement maps the object to an
    [outcome] that carries the object in both cases. *)

From Stdlib Require Import Floats ZArith Bool List Lia.
From Stdlib Require Uint63.
Import ListNotations.

Set Warnings "-inexact-float".

(* ================================================================== *)
(** ** Python values and expressions *)
(* ================================================================== *)

Inductive exn : Type :=
| ZeroDivisionError
| AttributeError
| NameError.

Inductive num : Type :=
| Py (f : float)
| Np (f : float).

Definition val (n : num) : float :=
  match n with Py f => f | Np f => f end.

Definition is_np (n : num) : bool :=
  match n with Py _ => false | Np _ => true end.

(** [+], [-], [*]: the result is a [numpy.float64] as soon as one operand is. *)
Definition lift2 (op : float -> float -> float) (p q : num) : num :=
  match p, q with
  | Py a, Py b => Py (op a b)
  | _, _ => Np (op (val p) (val q))
  end.

Definition add : num -> num -> num := lift2 PrimFloat.add.
Definition sub : num -> num -> num := lift2 PrimFloat.sub.
Definition mul : num -> num -> num := lift2 PrimFloat.mul.

(** [abs(n)] keeps the type of its argument. *)
Definition abs (n : num) : num :=
  match n with Py f => Py (PrimFloat.abs f) | Np f => Np (PrimFloat.abs f) end.

(** The result of evaluating an expression: a value or a raised exception. *)
Inductive result (A : Type) : Type :=
| Ok (a : A)
| Err (e : exn).
Arguments Ok {A} a.
Arguments Err {A} e.

Definition bind {A B : Type} (r : result A) (k : A -> result B) : result B :=
  match r with Ok a => k a | Err e => Err e end.

(** [p / q] (true division).  Python numbers: [ZeroDivisionError] when the
    divisor compares equal to zero (either sign).  With a [numpy.float64]
    operand: the IEEE quotient. *)
Definition truediv (p q : num) : result num :=
  match p, q with
  | Py a, Py b => if (b =? 0)%float then Err ZeroDivisionError else Ok (Py (a / b))
  | _, _ => Ok (Np (val p / val q))
  end.

Definition lt (p q : num) : bool := (val p <? val q)%float.
Definition le (p q : num) : bool := (val p <=? val q)%float.
Definition gt (p q : num) : bool := lt q p.
Definition ge (p q : num) : bool := le q p.

(** A name or literal in an expression. *)
Definition ret (n : num) : result num := Ok n.
Coercion Py : float >-> num.
Coercion ret : num >-> result.

(** Reading an attribute, or a global name, that may not have been assigned. *)
Definition attr {A : Type} (o : option A) : result A :=
  match o with Some n => Ok n | None => Err AttributeError end.
Definition name {A : Type} (o : option A) : result A :=
  match o with Some n => Ok n | None => Err NameError end.

(** Operators on expressions: operands are evaluated left to right. *)
Definition op2 {A : Type} (f : num -> num -> A) (e1 e2 : result num) : result A :=
  bind e1 (fun p => bind e2 (fun q => Ok (f p q))).
Definition pdiv (e1 e2 : result num) : result num :=
  bind e1 (fun p => bind e2 (fun q => truediv p q)).
Definition pabs (e : result num) : result num :=
  bind e (fun p => Ok (abs p)).
(** [e1 and e2] evaluates [e2] only when [e1] is true. *)
Definition pand (e1 e2 : result bool) : result bool :=
  bind e1 (fun b => if b then e2 else Ok false).

Declare Scope py_scope.
Delimit Scope py_scope with py.
Bind Scope py_scope with result.
Notation "e1 + e2" := (op2 add e1 e2) : py_scope.
Notation "e1 - e2" := (op2 sub e1 e2) : py_scope.
Notation "e1 * e2" := (op2 mul e1 e2) : py_scope.
Notation "e1 / e2" := (pdiv e1 e2) : py_scope.
Notation "e1 < e2" := (op2 lt e1 e2) : py_scope.
Notation "e1 <= e2" := (op2 le e1 e2) : py_scope.
Notation "e1 > e2" := (op2 gt e1 e2) : py_scope.
Notation "e1 >= e2" := (op2 ge e1 e2) : py_scope.
Notation "e1 'and' e2" := (pand e1 e2) (at level 80, right associativity) : py_scope.

Declare Scope num_scope.
Delimit Scope num_scope with num.
Bind Scope num_scope with num.
Notation "p + q" := (add p q) : num_scope.
Notation "p - q" := (sub p q) : num_scope.
Notation "p * q" := (mul p q) : num_scope.

(** The functions of numpy the notebook calls.  Their code is not part of the
    repository: they are parameters, from doubles to doubles; each returns a
    [numpy.float64] for a scalar argument. *)
Record numpy : Type := {
  np_sin : float -> float;
  np_cos : float -> float;
  np_arctan : float -> float
}.

Definition sin (np : numpy) (e : result num) : result num :=
  bind e (fun p => Ok (Np (np_sin np (val p)))).
Definition cos (np : numpy) (e : result num) : result num :=
  bind e (fun p => Ok (Np (np_cos np (val p)))).
Definition arctan (np : numpy) (e : result num) : result num :=
  bind e (fun p => Ok (Np (np_arctan np (val p)))).

(* ================================================================== *)
(** ** Statements *)
(* ================================================================== *)

(** What a statement leaves: the object as mutated so far, and the exception
    if one was raised. *)
Inductive outcome (S : Type) : Type :=
| Return (self : S)
| Raise (e : exn) (self : S).
Arguments Return {S} self.
Arguments Raise {S} e self.

Definition state_of {S : Type} (o : outcome S) : S :=
  match o with Return self => self | Raise _ self => self end.

Definition returns {S : Type} (o : outcome S) : bool :=
  match o with Return _ => true | Raise _ _ => false end.

Definition stmt (S : Type) : Type := S -> outcome S.

(** [target = e] *)
Definition assign {S A : Type} (set : A -> S -> S) (e : S -> result A) : stmt S :=
  fun self =>
    match e self with
    | Ok n => Return (set n self)
    | Err ex => Raise ex self
    end.

(** [s1; s2] *)
Definition seq {S : Type} (s1 s2 : stmt S) : stmt S :=
  fun self =>
    match s1 self with
    | Return self' => s2 self'
    | Raise ex self' => Raise ex self'
    end.

(** [if e: s1 else: s2] *)
Definition ifelse {S : Type} (e : S -> result bool) (s1 s2 : stmt S) : stmt S :=
  fun self =>
    match e self with
    | Ok true => s1 self
    | Ok false => s2 self
    | Err ex => Raise ex self
    end.

(** [pass] *)
Definition pass {S : Type} : stmt S := fun self => Return self.

Notation "s1 ;; s2" := (seq s1 s2) (at level 100, right associativity).

(* ================================================================== *)
(** ** The notebook's module-level names *)
(* ================================================================== *)

(** [sample_time] is bound by the cell that first drives the model
    ([sample_time = 0.01]), before any call of [step]; [alpha_a] is the
    global that [alpha] assigns and returns, unbound until then. *)
Module Globals.

Record t : Type := {
  sample_time : num;
  alpha_a : option num
}.

Definition set_alpha_a (n : num) (G : t) : t :=
  {| sample_time := G.(sample_time); alpha_a := Some n |}.

End Globals.

(* ================================================================== *)
(** ** class Vehicle *)
(* ================================================================== *)

Module Vehicle.

Local Open Scope float_scope.
Local Open Scope py_scope.

(** The attributes of an instance.  The first eighteen are assigned by
    [__init__]; [Te], [Fload], [w_w], [s] and [Fx] exist only once [step]
    has assigned them.  In the words of the specification: [x] is the position,
    [v] the velocity, [a] the acceleration, [w_e] the engine speed, [w_e_dot]
    the engine acceleration, [Te] the engine torque, [Fload] the load force,
    [w_w] the wheel speed, [s] the slip ratio and [Fx] the tire force. *)
Record t : Type := {
  (* Throttle to engine torque *)
  a_0 : num;
  a_1 : num;
  a_2 : num;
  (* Gear ratio, effective radius, mass + inertia *)
  GR : num;
  r_e : num;
  J_e : num;
  m : num;
  g : num;
  (* Aerodynamic and friction coefficients *)
  c_a : num;
  c_r1 : num;
  (* Tire force *)
  c : num;
  F_max : num;
  (* State variables *)
  x : num;
  v : num;
  a : num;
  w_e : num;
  w_e_dot : num;
  sample_time : num;
  (* Assigned by step *)
  Te : option num;
  Fload : option num;
  w_w : option num;
  s : option num;
  Fx : option num
}.

Definition set_x (n : num) (self : t) : t :=
  {| a_0 := self.(a_0); a_1 := self.(a_1); a_2 := self.(a_2); GR := self.(GR);
     r_e := self.(r_e); J_e := self.(J_e); m := self.(m); g := self.(g);
     c_a := self.(c_a); c_r1 := self.(c_r1); c := self.(c); F_max := self.(F_max);
     x := n; v := self.(v); a := self.(a); w_e := self.(w_e);
     w_e_dot := self.(w_e_dot); sample_time := self.(sample_time); Te := self.(Te);
     Fload := self.(Fload); w_w := self.(w_w); s := self.(s); Fx := self.(Fx) |}.

Definition set_v (n : num) (self : t) : t :=
  {| a_0 := self.(a_0); a_1 := self.(a_1); a_2 := self.(a_2); GR := self.(GR);
     r_e := self.(r_e); J_e := self.(J_e); m := self.(m); g := self.(g);
     c_a := self.(c_a); c_r1 := self.(c_r1); c := self.(c); F_max := self.(F_max);
     x := self.(x); v := n; a := self.(a); w_e := self.(w_e);
     w_e_dot := self.(w_e_dot); sample_time := self.(sample_time); Te := self.(Te);
     Fload := self.(Fload); w_w := self.(w_w); s := self.(s); Fx := self.(Fx) |}.

Definition set_a (n : num) (self : t) : t :=
  {| a_0 := self.(a_0); a_1 := self.(a_1); a_2 := self.(a_2); GR := self.(GR);
     r_e := self.(r_e); J_e := self.(J_e); m := self.(m); g := self.(g);
     c_a := self.(c_a); c_r1 := self.(c_r1); c := self.(c); F_max := self.(F_max);
     x := self.(x); v := self.(v); a := n; w_e := self.(w_e);
     w_e_dot := self.(w_e_dot); sample_time := self.(sample_time); Te := self.(Te);
     Fload := self.(Fload); w_w := self.(w_w); s := self.(s); Fx := self.(Fx) |}.

Definition set_w_e (n : num) (self : t) : t :=
  {| a_0 := self.(a_0); a_1 := self.(a_1); a_2 := self.(a_2); GR := self.(GR);
     r_e := self.(r_e); J_e := self.(J_e); m := self.(m); g := self.(g);
     c_a := self.(c_a); c_r1 := self.(c_r1); c := self.(c); F_max := self.(F_max);
     x := self.(x); v := self.(v); a := self.(a); w_e := n; w_e_dot := self.(w_e_dot);
     sample_time := self.(sample_time); Te := self.(Te); Fload := self.(Fload);
     w_w := self.(w_w); s := self.(s); Fx := self.(Fx) |}.

Definition set_w_e_dot (n : num) (self : t) : t :=
  {| a_0 := self.(a_0); a_1 := self.(a_1); a_2 := self.(a_2); GR := self.(GR);
     r_e := self.(r_e); J_e := self.(J_e); m := self.(m); g := self.(g);
     c_a := self.(c_a); c_r1 := self.(c_r1); c := self.(c); F_max := self.(F_max);
     x := self.(x); v := self.(v); a := self.(a); w_e := self.(w_e); w_e_dot := n;
     sample_time := self.(sample_time); Te := self.(Te); Fload := self.(Fload);
     w_w := self.(w_w); s := self.(s); Fx := self.(Fx) |}.

Definition set_Te (n : num) (self : t) : t :=
  {| a_0 := self.(a_0); a_1 := self.(a_1); a_2 := self.(a_2); GR := self.(GR);
     r_e := self.(r_e); J_e := self.(J_e); m := self.(m); g := self.(g);
     c_a := self.(c_a); c_r1 := self.(c_r1); c := self.(c); F_max := self.(F_max);
     x := self.(x); v := self.(v); a := self.(a); w_e := self.(w_e);
     w_e_dot := self.(w_e_dot); sample_time := self.(sample_time); Te := Some n;
     Fload := self.(Fload); w_w := self.(w_w); s := self.(s); Fx := self.(Fx) |}.

Definition set_Fload (n : num) (self : t) : t :=
  {| a_0 := self.(a_0); a_1 := self.(a_1); a_2 := self.(a_2); GR := self.(GR);
     r_e := self.(r_e); J_e := self.(J_e); m := self.(m); g := self.(g);
     c_a := self.(c_a); c_r1 := self.(c_r1); c := self.(c); F_max := self.(F_max);
     x := self.(x); v := self.(v); a := self.(a); w_e := self.(w_e);
     w_e_dot := self.(w_e_dot); sample_time := self.(sample_time); Te := self.(Te);
     Fload := Some n; w_w := self.(w_w); s := self.(s); Fx := self.(Fx) |}.

Definition set_w_w (n : num) (self : t) : t :=
  {| a_0 := self.(a_0); a_1 := self.(a_1); a_2 := self.(a_2); GR := self.(GR);
     r_e := self.(r_e); J_e := self.(J_e); m := self.(m); g := self.(g);
     c_a := self.(c_a); c_r1 := self.(c_r1); c := self.(c); F_max := self.(F_max);
     x := self.(x); v := self.(v); a := self.(a); w_e := self.(w_e);
     w_e_dot := self.(w_e_dot); sample_time := self.(sample_time); Te := self.(Te);
     Fload := self.(Fload); w_w := Some n; s := self.(s); Fx := self.(Fx) |}.

Definition set_s (n : num) (self : t) : t :=
  {| a_0 := self.(a_0); a_1 := self.(a_1); a_2 := self.(a_2); GR := self.(GR);
     r_e := self.(r_e); J_e := self.(J_e); m := self.(m); g := self.(g);
     c_a := self.(c_a); c_r1 := self.(c_r1); c := self.(c); F_max := self.(F_max);
     x := self.(x); v := self.(v); a := self.(a); w_e := self.(w_e);
     w_e_dot := self.(w_e_dot); sample_time := self.(sample_time); Te := self.(Te);
     Fload := self.(Fload); w_w := self.(w_w); s := Some n; Fx := self.(Fx) |}.

Definition set_Fx (n : num) (self : t) : t :=
  {| a_0 := self.(a_0); a_1 := self.(a_1); a_2 := self.(a_2); GR := self.(GR);
     r_e := self.(r_e); J_e := self.(J_e); m := self.(m); g := self.(g);
     c_a := self.(c_a); c_r1 := self.(c_r1); c := self.(c); F_max := self.(F_max);
     x := self.(x); v := self.(v); a := self.(a); w_e := self.(w_e);
     w_e_dot := self.(w_e_dot); sample_time := self.(sample_time); Te := self.(Te);
     Fload := self.(Fload); w_w := self.(w_w); s := self.(s); Fx := Some n |}.

(** The object [Vehicle()] returns. *)
Definition __init__ : t :=
  {| a_0 := 400; a_1 := 0.1; a_2 := -0.0002;
     GR := 0.35; r_e := 0.3; J_e := 10; m := 2000; g := 9.81;
     c_a := 1.36; c_r1 := 0.01;
     c := 10000; F_max := 10000;
     x := 0; v := 5; a := 0; w_e := 100; w_e_dot := 0;
     sample_time := 0.01;
     Te := None; Fload := None; w_w := None; s := None; Fx := None |}.

Definition reset : stmt t :=
  assign set_x (fun self => 0) ;;
  assign set_v (fun self => 5) ;;
  assign set_a (fun self => 0) ;;
  assign set_w_e (fun self => 100) ;;
  assign set_w_e_dot (fun self => 0).

(** [step] reads the bare name [sample_time], which Python resolves in the
    module's globals ([G]), not the attribute [self.sample_time]. *)
Definition step (np : numpy) (G : Globals.t) (throttle alpha : num) : stmt t :=
  (* Update Vehicle Speed *)
  assign set_x (fun self => self.(x) + self.(v) * G.(Globals.sample_time)) ;;
  assign set_v (fun self => self.(v) + self.(a) * G.(Globals.sample_time)) ;;
  assign set_w_e (fun self => self.(w_e) + self.(w_e_dot) * G.(Globals.sample_time)) ;;
  (* Update Engine Speed *)
  assign set_Te (fun self =>
    throttle * (self.(a_0) + self.(a_1) * self.(w_e) + self.(a_2) * self.(w_e) * self.(w_e))) ;;
  assign set_Fload (fun self =>
    self.(c_a) * self.(v) * self.(v) + self.(c_r1) * self.(v)
    + self.(m) * self.(g) * sin np alpha) ;;
  assign set_w_e_dot (fun self =>
    (attr self.(Te) - self.(GR) * (self.(r_e) * attr self.(Fload))) / self.(J_e)) ;;
  (* Update Wheel Speed *)
  assign set_w_w (fun self => self.(GR) * self.(w_e)) ;;
  (* Slip Ratio *)
  assign set_s (fun self => ((attr self.(w_w) * self.(r_e)) - self.(v)) / self.(v)) ;;
  ifelse (fun self => pabs (attr self.(s)) < 1)
    (assign set_Fx (fun self => self.(c) * attr self.(s)))
    (assign set_Fx (fun self => self.(F_max))) ;;
  assign set_a (fun self => (attr self.(Fx) - attr self.(Fload)) / self.(m)) ;;
  pass.

End Vehicle.

(* ================================================================== *)
(** ** The incline helper and the driver loop *)
(* ================================================================== *)

(** [if ... elif ... elif ...] with no [else]: the first branch whose test
    holds runs, none when no test holds. *)
Definition elif_chain {S : Type} (branches : list ((S -> result bool) * stmt S)) : stmt S :=
  fold_right (fun b rest => ifelse (fst b) (snd b) rest) pass branches.

Section Notebook.

Local Open Scope float_scope.
Local Open Scope py_scope.

Variable np : numpy.

(** [def alpha(x)]: assigns the global [alpha_a] in the branch whose test
    holds, in no branch otherwise, and returns [alpha_a], whatever it then
    holds.  The value is the result, the globals are the state. *)
Definition alpha (x : num) (G : Globals.t) : result num * Globals.t :=
  let body : stmt Globals.t :=
    elif_chain
      [ (fun _ => x <= 60 / cos np (arctan np (3 / 60)) and x >= 0,
         assign Globals.set_alpha_a (fun _ => arctan np (3 / 60)));
        (fun _ => x > 60 / cos np (arctan np (3 / 60))
                  and x <= (60 / cos np (arctan np (3 / 60))
                            + 90 / cos np (arctan np (9 / 90))),
         assign Globals.set_alpha_a (fun _ => arctan np (9 / 90)));
        (fun _ => x > (60 / cos np (arctan np (3 / 60))
                       + 90 / cos np (arctan np (9 / 90))),
         assign Globals.set_alpha_a (fun _ => 0)) ]
  in
  match body G with
  | Return G' => (name G'.(Globals.alpha_a), G')
  | Raise e G' => (Err e, G')
  end.

(** The loops that drive the model ([for i in range(...): ... model.step(...)]),
    over a list of (throttle, incline) pairs: the five state variables are
    recorded after each call, and an exception ends the loop. *)
Fixpoint run (G : Globals.t) (inputs : list (num * num)) (self : Vehicle.t)
  : list (num * num * num * num * num) * outcome Vehicle.t :=
  match inputs with
  | [] => ([], Return self)
  | (throttle, incline) :: rest =>
      match Vehicle.step np G throttle incline self with
      | Return self' =>
          let (trajectory, o) := run G rest self' in
          ((self'.(Vehicle.x), self'.(Vehicle.v), self'.(Vehicle.a),
            self'.(Vehicle.w_e), self'.(Vehicle.w_e_dot)) :: trajectory, o)
      | Raise e self' => ([], Raise e self')
      end
  end.

End Notebook.

(* ================================================================== *)
(** ** Observations used in the statements *)
(* ================================================================== *)

(** The five state variables. *)
Definition state (self : Vehicle.t) : num * num * num * num * num :=
  (self.(Vehicle.x), self.(Vehicle.v), self.(Vehicle.a),
   self.(Vehicle.w_e), self.(Vehicle.w_e_dot)).

(** The thirteen fixed parameters. *)
Definition params (self : Vehicle.t) : list num :=
  [ self.(Vehicle.a_0); self.(Vehicle.a_1); self.(Vehicle.a_2);
    self.(Vehicle.GR); self.(Vehicle.r_e); self.(Vehicle.J_e);
    self.(Vehicle.m); self.(Vehicle.g);
    self.(Vehicle.c_a); self.(Vehicle.c_r1);
    self.(Vehicle.c); self.(Vehicle.F_max);
    self.(Vehicle.sample_time) ].

(** The attributes that only [step] assigns. *)
Definition scratch (self : Vehicle.t) : list (option num) :=
  [ self.(Vehicle.Te); self.(Vehicle.Fload); self.(Vehicle.w_w);
    self.(Vehicle.s); self.(Vehicle.Fx) ].

(** Every attribute other than the five state variables. *)
Definition other_attributes (self : Vehicle.t) : list num * list (option num) :=
  (params self, scratch self).

(** [n == 0] *)
Definition is_zero (n : num) : bool := (val n =? 0)%float.

(** The objects a program obtains through the class alone: the constructor,
    [reset] and [step], whatever the inputs and the module's [sample_time],
    and whether or not a call raised. *)
Inductive reachable (np : numpy) : Vehicle.t -> Prop :=
| reach_init : reachable np Vehicle.__init__
| reach_reset self :
    reachable np self -> reachable np (state_of (Vehicle.reset self))
| reach_step G throttle incline self :
    reachable np self ->
    reachable np (state_of (Vehicle.step np G throttle incline self)).

(** Stand-ins for numpy's functions, by their Taylor polynomials at 0: good
    to a few units in the last place for the angles of the notebook (at most
    0.1 rad).  They serve to run the model on concrete inputs; every theorem
    below holds for any [numpy]. *)
Definition taylor_sin (t : float) : float :=
  (t - t*t*t/6 + t*t*t*t*t/120 - t*t*t*t*t*t*t/5040)%float.
Definition taylor_cos (t : float) : float :=
  (1 - t*t/2 + t*t*t*t/24 - t*t*t*t*t*t/720)%float.
Definition taylor_arctan (t : float) : float :=
  (t - t*t*t/3 + t*t*t*t*t/5 - t*t*t*t*t*t*t/7)%float.
Definition taylor : numpy :=
  {| np_sin := taylor_sin; np_cos := taylor_cos; np_arctan := taylor_arctan |}.

(** The module's globals when the notebook first calls [step]. *)
Definition notebook_globals : Globals.t :=
  {| Globals.sample_time := Py 0.01; Globals.alpha_a := None |}.

(* ================================================================== *)
(** ** The cells that drive the model *)
(* ================================================================== *)

(** A float64 array ([np.arange], [np.zeros_like]): a list of doubles.
    Reading an element gives a [numpy.float64], writing one stores the double
    of the value; an index past the end raises [IndexError] (the loops count
    from 0, so no index is negative). *)
Definition ndarray : Type := list float.

Definition zeros_like (arr : ndarray) : ndarray := map (fun _ => 0%float) arr.

Definition getitem (arr : ndarray) (i : nat) : option float := nth_error arr i.

Fixpoint setitem (arr : ndarray) (i : nat) (f : float) : option ndarray :=
  match arr, i with
  | [], _ => None
  | _ :: rest, O => Some (f :: rest)
  | e :: rest, S j => option_map (cons e) (setitem rest j f)
  end.

(** What a cell can raise: the exceptions of its expressions and calls, and
    [IndexError]. *)
Inductive error : Type :=
| Uncaught (e : exn)
| IndexError.

(** What running statements of a cell leaves: the variables as assigned so
    far, and the exception if one was raised. *)
Inductive ran (S : Type) : Type :=
| Done (s : S)
| Failed (e : error) (s : S).
Arguments Done {S} s.
Arguments Failed {S} e s.

Definition vars_of {S : Type} (r : ran S) : S :=
  match r with Done s => s | Failed _ s => s end.

Definition completes {S : Type} (r : ran S) : bool :=
  match r with Done _ => true | Failed _ _ => false end.

(** [arr[i]] in an expression. *)
Definition item (arr : ndarray) (i : nat) : error + num :=
  match getitem arr i with
  | Some f => inr (Np f)
  | None => inl IndexError
  end.

(** An arithmetic expression inside a cell. *)
Definition value (r : result num) : error + num :=
  match r with Ok n => inr n | Err e => inl (Uncaught e) end.

(** Evaluates [e] and goes on with its value; the exception of [e] ends the
    cell with the variables [s]. *)
Definition attempt {A S : Type} (e : error + A) (s : S) (k : A -> ran S) : ran S :=
  match e with inr a => k a | inl err => Failed err s end.

(** [arr[i] = n] *)
Definition put (arr : ndarray) (i : nat) (n : num) : ran ndarray :=
  match setitem arr i (val n) with
  | Some arr' => Done arr'
  | None => Failed IndexError arr
  end.

Definition and_then {S : Type} (r : ran S) (k : S -> ran S) : ran S :=
  match r with Done s => k s | Failed e s => Failed e s end.

(** [for i in range(n): body], entered at index [i] with [n] rounds to go. *)
Fixpoint for_range_from {V : Type} (body : nat -> V -> ran V) (i n : nat) (s : V) : ran V :=
  match n with
  | O => Done s
  | S n' => and_then (body i s) (for_range_from body (S i) n')
  end.

Definition for_range {V : Type} (n : nat) (body : nat -> V -> ran V) : V -> ran V :=
  for_range_from body 0 n.

(** The loop index, a Python int, in arithmetic with floats (exact below
    [2^53]; an array has fewer elements). *)
Definition int (i : nat) : num := Py (PrimFloat.of_uint63 (Uint63.of_Z (Z.of_nat i))).

(** The variables of the ramp cell. *)
Module Cell.

Record t : Type := {
  model : Vehicle.t;
  globals : Globals.t;
  x_data : ndarray;
  x_throttle_data : ndarray;
  v_data : ndarray
}.

Definition set_model (m : Vehicle.t) (c : t) : t :=
  {| model := m; globals := c.(globals); x_data := c.(x_data);
     x_throttle_data := c.(x_throttle_data); v_data := c.(v_data) |}.

Definition set_globals (G : Globals.t) (c : t) : t :=
  {| model := c.(model); globals := G; x_data := c.(x_data);
     x_throttle_data := c.(x_throttle_data); v_data := c.(v_data) |}.

Definition set_x_data (arr : ndarray) (c : t) : t :=
  {| model := c.(model); globals := c.(globals); x_data := arr;
     x_throttle_data := c.(x_throttle_data); v_data := c.(v_data) |}.

Definition set_x_throttle_data (arr : ndarray) (c : t) : t :=
  {| model := c.(model); globals := c.(globals); x_data := c.(x_data);
     x_throttle_data := arr; v_data := c.(v_data) |}.

Definition set_v_data (arr : ndarray) (c : t) : t :=
  {| model := c.(model); globals := c.(globals); x_data := c.(x_data);
     x_throttle_data := c.(x_throttle_data); v_data := arr |}.

End Cell.

Section Cells.

Local Open Scope float_scope.
Local Open Scope py_scope.

Variable np : numpy.

(** The body of the throttle loop:
    [while i == 0: x_throttle_data[i] = 0.2; break], then the
    [if]/[elif]/[elif] on [t_data[i]].  [sample_time] is the module's. *)
Definition throttle_body (G : Globals.t) (t_data : ndarray) (i : nat)
    (x_throttle_data : ndarray) : ran ndarray :=
  and_then
    (if Nat.eqb i 0 then put x_throttle_data i 0.2 else Done x_throttle_data)
    (fun x_throttle_data =>
       attempt (item t_data i) x_throttle_data (fun t_i =>
       if le t_i 5 then
         attempt (item x_throttle_data 0) x_throttle_data (fun first =>
         attempt (value (first + (0.3 / 5) * int i * G.(Globals.sample_time)))
                 x_throttle_data (fun e =>
         put x_throttle_data i e))
       else
       attempt (item t_data i) x_throttle_data (fun t_i =>
       if le t_i 15 then put x_throttle_data i 0.5
       else
       attempt (item t_data i) x_throttle_data (fun t_i =>
       if le t_i 20 then
         attempt (value (2 - (0.5 / 5) * int i * G.(Globals.sample_time)))
                 x_throttle_data (fun e =>
         put x_throttle_data i e)
       else Done x_throttle_data)))).

(** [for i in range(len(t_data)): ...] *)
Definition throttle_loop (G : Globals.t) (t_data : ndarray) : ndarray -> ran ndarray :=
  for_range (length t_data) (throttle_body G t_data).

(** The body of the loop that drives the model over the ramp:
    [x_data[i] = model.x], [a_i = alpha(float(x_data[i]))],
    [model.step(x_throttle_data[i], a_i)], [v_data[i] = model.v]. *)
Definition drive_body (i : nat) (c : Cell.t) : ran Cell.t :=
  match setitem c.(Cell.x_data) i (val c.(Cell.model).(Vehicle.x)) with
  | None => Failed IndexError c
  | Some arr =>
      let c := Cell.set_x_data arr c in
      attempt (item c.(Cell.x_data) i) c (fun x_i =>
      let (r, G') := alpha np (Py (val x_i)) c.(Cell.globals) in
      let c := Cell.set_globals G' c in
      attempt (value r) c (fun a_i =>
      attempt (item c.(Cell.x_throttle_data) i) c (fun throttle =>
      match Vehicle.step np c.(Cell.globals) throttle a_i c.(Cell.model) with
      | Raise e m => Failed (Uncaught e) (Cell.set_model m c)
      | Return m =>
          let c := Cell.set_model m c in
          match setitem c.(Cell.v_data) i (val c.(Cell.model).(Vehicle.v)) with
          | None => Failed IndexError c
          | Some arr => Done (Cell.set_v_data arr c)
          end
      end)))
  end.

(** [for i in range(t_data.shape[0]): ...] *)
Definition drive_loop (t_data : ndarray) : Cell.t -> ran Cell.t :=
  for_range (length t_data) drive_body.

(** The ramp cell, from its arrays to the end of its second loop, on the
    model and the globals the earlier cells left: the three arrays are
    [np.zeros_like(t_data)], the model is reset, the throttle loop fills
    [x_throttle_data], and the model is driven. *)
Definition ramp_cell (model : Vehicle.t) (G : Globals.t) (t_data : ndarray) : ran Cell.t :=
  let c := {| Cell.model := model; Cell.globals := G;
              Cell.x_data := zeros_like t_data;
              Cell.x_throttle_data := zeros_like t_data;
              Cell.v_data := zeros_like t_data |} in
  match Vehicle.reset c.(Cell.model) with
  | Raise e m => Failed (Uncaught e) (Cell.set_model m c)
  | Return m =>
      let c := Cell.set_model m c in
      match throttle_loop c.(Cell.globals) t_data c.(Cell.x_throttle_data) with
      | Failed e arr => Failed e (Cell.set_x_throttle_data arr c)
      | Done arr => drive_loop t_data (Cell.set_x_throttle_data arr c)
      end
  end.

(** The body of the first cell's loop, on the model and [v_data]:
    [v_data[i] = model.v], [model.step(throttle, alpha)], with the module's
    [throttle] and [alpha] (there a number, 0). *)
Definition constant_body (G : Globals.t) (throttle alpha : num) (i : nat)
    (c : Vehicle.t * ndarray) : ran (Vehicle.t * ndarray) :=
  match setitem (snd c) i (val (fst c).(Vehicle.v)) with
  | None => Failed IndexError c
  | Some arr =>
      match Vehicle.step np G throttle alpha (fst c) with
      | Raise e m => Failed (Uncaught e) (m, arr)
      | Return m => Done (m, arr)
      end
  end.

Definition constant_loop (G : Globals.t) (throttle alpha : num) (t_data : ndarray)
  : Vehicle.t * ndarray -> ran (Vehicle.t * ndarray) :=
  for_range (length t_data) (constant_body G throttle alpha).

End Cells.

(** The throttle loop, sample by sample: what index [i] holds in the end,
    given the time [t_i] of the sample, the sample [first] that the first
    branch reads back from index 0, and what the index held before
    ([before]: 0.2 at index 0, 0 elsewhere). *)
Definition throttle_sample (G : Globals.t) (i : nat) (t_i first before : float) : float :=
  if (t_i <=? 5)%float then
    val (Np first + Py (0.3 / 5) * int i * G.(Globals.sample_time))%num
  else if (t_i <=? 15)%float then 0.5%float
  else if (t_i <=? 20)%float then
    val (Py 2 - Py (0.5 / 5) * int i * G.(Globals.sample_time))%num
  else before.

(** The twelve parameters of the dynamics: all but [sample_time]. *)
Definition physical (self : Vehicle.t) : list num :=
  [ self.(Vehicle.a_0); self.(Vehicle.a_1); self.(Vehicle.a_2);
    self.(Vehicle.GR); self.(Vehicle.r_e); self.(Vehicle.J_e);
    self.(Vehicle.m); self.(Vehicle.g);
    self.(Vehicle.c_a); self.(Vehicle.c_r1);
    self.(Vehicle.c); self.(Vehicle.F_max) ].

(** Two runs of the ramp cell left the same arrays and globals, and models
    with the same dynamics: the same twelve parameters and the same state. *)
Definition same_results (c1 c2 : Cell.t) : Prop :=
  c1.(Cell.globals) = c2.(Cell.globals)
  /\ c1.(Cell.x_data) = c2.(Cell.x_data)
  /\ c1.(Cell.x_throttle_data) = c2.(Cell.x_throttle_data)
  /\ c1.(Cell.v_data) = c2.(Cell.v_data)
  /\ physical c1.(Cell.model) = physical c2.(Cell.model)
  /\ state c1.(Cell.model) = state c2.(Cell.model).

(* ================================================================== *)
(** ** Arithmetic with a numpy operand *)
(* ================================================================== *)

Lemma add_np_r p f : (p + Np f)%num = Np (val p + f).
Proof. destruct p; reflexivity. Qed.

Lemma sub_np_r p f : (p - Np f)%num = Np (val p - f).
Proof. destruct p; reflexivity. Qed.

Lemma mul_np_r p f : (p * Np f)%num = Np (val p * f).
Proof. destruct p; reflexivity. Qed.

Lemma add_np_l f q : (Np f + q)%num = Np (f + val q).
Proof. reflexivity. Qed.

Lemma mul_np_l f q : (Np f * q)%num = Np (f * val q).
Proof. reflexivity. Qed.

Lemma truediv_np_l f q : truediv (Np f) q = Ok (Np (f / val q)).
Proof. reflexivity. Qed.

Lemma truediv_np_r p f : truediv p (Np f) = Ok (Np (val p / f)).
Proof. destruct p; reflexivity. Qed.

(** A division raises only [ZeroDivisionError], and only when both operands
    are Python numbers and the divisor is zero. *)
Lemma truediv_raises p q e :
  truediv p q = Err e ->
  e = ZeroDivisionError /\ is_zero q = true /\ is_np p = false /\ is_np q = false.
Proof.
  destruct p as [a|a], q as [b|b]; cbn; try discriminate.
  unfold is_zero; cbn. destruct (b =? 0)%float; [|discriminate].
  intros [= <-]. repeat split.
Qed.

#[local] Arguments add : simpl never.
#[local] Arguments sub : simpl never.
#[local] Arguments mul : simpl never.
#[local] Arguments truediv : simpl never.
#[local] Arguments abs : simpl never.
#[local] Arguments lt : simpl never.
#[local] Arguments le : simpl never.
#[local] Arguments Vehicle.step : simpl never.

Ltac np_rw :=
  repeat first [rewrite add_np_r | rewrite sub_np_r | rewrite mul_np_r
               | rewrite truediv_np_l | rewrite truediv_np_r].

(** Runs the statements of [step] on the object, up to the next test or
    division that does not reduce. *)
Ltac exec :=
  unfold Vehicle.step, seq, assign, ifelse, pass; cbn; np_rw; cbn.

(* ================================================================== *)
(** ** The order of doubles *)
(* ================================================================== *)

Ltac cases_cmp :=
  repeat match goal with
  | |- context [Z.compare ?x ?y] => destruct (Z.compare_spec x y)
  | |- context [Pos.compare_cont Eq ?x ?y] =>
      change (Pos.compare_cont Eq x y) with (Pos.compare x y);
      destruct (Pos.compare_spec x y)
  end.

Ltac cases_float :=
  repeat match goal with s : bool |- _ => destruct s end;
  cbn; try discriminate; auto;
  cases_cmp; cbn; try discriminate; auto; try lia.

Lemma SFleb_SFltb_trans a b c :
  SFleb a b = true -> SFltb b c = true -> SFltb a c = true.
Proof.
  unfold SFleb, SFltb.
  destruct a as [sa|sa| |sa ma ea], b as [sb|sb| |sb mb eb], c as [sc|sc| |sc mc ec];
    cases_float.
Qed.

Lemma SFltb_SFleb_false a b : SFltb a b = true -> SFleb b a = false.
Proof.
  unfold SFleb, SFltb.
  destruct a as [sa|sa| |sa ma ea], b as [sb|sb| |sb mb eb]; cases_float.
Qed.


(** Two doubles that are numbers (each one is in some [<=]) compare one way
    or the other. *)
Lemma SFleb_total a b x y :
  SFleb a x = true -> SFleb b y = true -> SFleb x b = true \/ SFltb b x = true.
Proof.
  unfold SFleb, SFltb.
  destruct a as [sa|sa| |sa ma ea], b as [sb|sb| |sb mb eb],
    x as [sx|sx| |sx mx ex], y as [sy|sy| |sy my ey]; cases_float.
Qed.

Lemma SFleb_number_r a b : SFleb a b = true -> SFleb b b = true.
Proof.
  unfold SFleb.
  destruct a as [sa|sa| |sa ma ea], b as [sb|sb| |sb mb eb]; cases_float.
Qed.

Lemma le_number_r p q : le p q = true -> le q q = true.
Proof. unfold le. rewrite !leb_spec. apply SFleb_number_r. Qed.

Lemma le_lt_trans p q r : le p q = true -> lt q r = true -> lt p r = true.
Proof. unfold le, lt. rewrite leb_spec, !ltb_spec. apply SFleb_SFltb_trans. Qed.

Lemma lt_not_le p q : lt p q = true -> le q p = false.
Proof. unfold le, lt. rewrite leb_spec, ltb_spec. apply SFltb_SFleb_false. Qed.


Lemma le_or_lt a b x y :
  le a x = true -> le b y = true -> le x b = true \/ lt b x = true.
Proof. unfold le, lt. rewrite !leb_spec, ltb_spec. apply SFleb_total. Qed.

(* ================================================================== *)
(** ** One call of step *)
(* ================================================================== *)

Section Step.

Variables (np : numpy) (G : Globals.t) (throttle incline : num) (self : Vehicle.t).

(** What [step] does, assignment by assignment: the two divisions whose
    dividend holds the load force, a [numpy.float64], return; the division of
    the slip ratio decides the outcome. *)
Lemma step_run :
  let dt := Globals.sample_time G in
  let x1 := (Vehicle.x self + Vehicle.v self * dt)%num in
  let v1 := (Vehicle.v self + Vehicle.a self * dt)%num in
  let w1 := (Vehicle.w_e self + Vehicle.w_e_dot self * dt)%num in
  let te := (throttle * (Vehicle.a_0 self + Vehicle.a_1 self * w1
                         + Vehicle.a_2 self * w1 * w1))%num in
  let fl := (Vehicle.c_a self * v1 * v1 + Vehicle.c_r1 self * v1
             + Vehicle.m self * Vehicle.g self * Np (np_sin np (val incline)))%num in
  let ww := (Vehicle.GR self * w1)%num in
  exists wd,
    truediv (te - Vehicle.GR self * (Vehicle.r_e self * fl))%num (Vehicle.J_e self) = Ok wd /\
    let self7 :=
      Vehicle.set_w_w ww (Vehicle.set_w_e_dot wd (Vehicle.set_Fload fl
        (Vehicle.set_Te te (Vehicle.set_w_e w1 (Vehicle.set_v v1
          (Vehicle.set_x x1 self)))))) in
    match truediv (ww * Vehicle.r_e self - v1)%num v1 with
    | Err e => Vehicle.step np G throttle incline self = Raise e self7
    | Ok sr =>
        let fx := if lt (abs sr) (Py 1) then (Vehicle.c self * sr)%num
                  else Vehicle.F_max self in
        exists acc,
          truediv (fx - fl)%num (Vehicle.m self) = Ok acc /\
          Vehicle.step np G throttle incline self
          = Return (Vehicle.set_a acc (Vehicle.set_Fx fx (Vehicle.set_s sr self7)))
    end.
Proof.
  intros dt x1 v1 w1 te fl ww.
  eexists. split.
  { subst fl. np_rw. reflexivity. }
  intros self7.
  destruct (truediv (ww * Vehicle.r_e self - v1)%num v1) as [sr|e] eqn:Hs.
  - intros fx.
    assert (Hfx : exists acc, truediv (fx - fl)%num (Vehicle.m self) = Ok acc /\
                  acc = Np (val (fx - fl)%num / val (Vehicle.m self))).
    { subst fl. np_rw. eexists. split; reflexivity. }
    destruct Hfx as (acc & Hacc & ->). eexists. split; [exact Hacc|].
    clear Hacc. subst dt x1 v1 w1 te fl ww self7 fx.
    exec. rewrite Hs. exec.
    destruct (lt (abs sr) (Py 1)); exec; reflexivity.
  - subst dt x1 v1 w1 te fl ww self7.
    exec. rewrite Hs. reflexivity.
Qed.

(** What holds of the object [step] leaves, whether it returned or raised. *)
Lemma step_always :
  let dt := Globals.sample_time G in
  let self' := state_of (Vehicle.step np G throttle incline self) in
  let v1 := (Vehicle.v self + Vehicle.a self * dt)%num in
  let w1 := (Vehicle.w_e self + Vehicle.w_e_dot self * dt)%num in
  let te := (throttle * (Vehicle.a_0 self + Vehicle.a_1 self * w1
                         + Vehicle.a_2 self * w1 * w1))%num in
  let fl := (Vehicle.c_a self * v1 * v1 + Vehicle.c_r1 self * v1
             + Vehicle.m self * Vehicle.g self * Np (np_sin np (val incline)))%num in
  Vehicle.x self' = (Vehicle.x self + Vehicle.v self * dt)%num
  /\ Vehicle.v self' = v1
  /\ Vehicle.w_e self' = w1
  /\ Vehicle.Te self' = Some te
  /\ Vehicle.Fload self' = Some fl
  /\ Vehicle.w_w self' = Some (Vehicle.GR self * w1)%num
  /\ truediv (te - Vehicle.GR self * (Vehicle.r_e self * fl))%num (Vehicle.J_e self)
     = Ok (Vehicle.w_e_dot self')
  /\ params self' = params self.
Proof.
  intros dt self' v1 w1 te fl.
  destruct step_run as (wd & Hwd & Hrun). cbv zeta in Hrun.
  fold dt v1 w1 te fl in Hwd, Hrun.
  destruct (truediv _ v1) as [sr|e].
  - destruct Hrun as (acc & _ & Hrun). subst self'. rewrite Hrun. cbn.
    repeat split; try reflexivity. exact Hwd.
  - subst self'. rewrite Hrun. cbn. repeat split; try reflexivity. exact Hwd.
Qed.

(** What holds more when [step] returned. *)
Lemma step_returned self' :
  Vehicle.step np G throttle incline self = Return self' ->
  let dt := Globals.sample_time G in
  let v1 := (Vehicle.v self + Vehicle.a self * dt)%num in
  let w1 := (Vehicle.w_e self + Vehicle.w_e_dot self * dt)%num in
  let fl := (Vehicle.c_a self * v1 * v1 + Vehicle.c_r1 self * v1
             + Vehicle.m self * Vehicle.g self * Np (np_sin np (val incline)))%num in
  exists sr,
    truediv (Vehicle.GR self * w1 * Vehicle.r_e self - v1)%num v1 = Ok sr
    /\ Vehicle.s self' = Some sr
    /\ Vehicle.Fx self'
       = Some (if lt (abs sr) (Py 1) then (Vehicle.c self * sr)%num else Vehicle.F_max self)
    /\ truediv ((if lt (abs sr) (Py 1) then (Vehicle.c self * sr)%num else Vehicle.F_max self)
                - fl)%num (Vehicle.m self)
       = Ok (Vehicle.a self').
Proof.
  intros Hret dt v1 w1 fl.
  destruct step_run as (wd & Hwd & Hrun). cbv zeta in Hrun.
  fold dt v1 w1 fl in Hrun.
  destruct (truediv _ v1) as [sr|e]; [|congruence].
  destruct Hrun as (acc & Hacc & Hrun). rewrite Hrun in Hret.
  injection Hret as <-. exists sr. cbn. repeat split; try reflexivity. exact Hacc.
Qed.

(** What holds when [step] raised: the exception is the slip ratio's
    division by a zero velocity, and its assignment and the two after it did
    not happen. *)
Lemma step_raised e self' :
  Vehicle.step np G throttle incline self = Raise e self' ->
  let dt := Globals.sample_time G in
  let v1 := (Vehicle.v self + Vehicle.a self * dt)%num in
  let w1 := (Vehicle.w_e self + Vehicle.w_e_dot self * dt)%num in
  truediv (Vehicle.GR self * w1 * Vehicle.r_e self - v1)%num v1 = Err e
  /\ Vehicle.s self' = Vehicle.s self
  /\ Vehicle.Fx self' = Vehicle.Fx self
  /\ Vehicle.a self' = Vehicle.a self.
Proof.
  intros Hret dt v1 w1.
  destruct step_run as (wd & Hwd & Hrun). cbv zeta in Hrun.
  fold dt v1 w1 in Hrun.
  destruct (truediv _ v1) as [sr|e'].
  - destruct Hrun as (acc & _ & Hrun). congruence.
  - rewrite Hrun in Hret. injection Hret as <- <-. repeat split.
Qed.

End Step.

(* ================================================================== *)
(** ** The objects the class produces *)
(* ================================================================== *)

(** [5 + 0*dt] is 5, or not a number: never zero. *)
Lemma five_plus_zero_times (dt : float) : (5 + 0 * dt =? 0)%float = false.
Proof.
  rewrite FloatAxioms.eqb_spec, add_spec, mul_spec.
  destruct (Prim2SF dt) as [s|s| |s m e]; try destruct s; reflexivity.
Qed.

(** [step] cannot raise on an object whose acceleration is a
    [numpy.float64], nor on one whose velocity and acceleration are the
    constructor's: the integrated velocity is a [numpy.float64] in the first
    case, and 5 or a NaN in the second. *)
Lemma step_returns_under_invariant
  (np : numpy) (G : Globals.t) (throttle incline : num) (self : Vehicle.t) :
  is_np (Vehicle.a self) = true
  \/ (Vehicle.v self = Py 5 /\ Vehicle.a self = Py 0) ->
  returns (Vehicle.step np G throttle incline self) = true.
Proof.
  intros Hinv.
  destruct (Vehicle.step np G throttle incline self) as [self'|e self'] eqn:Hstep;
    [reflexivity|exfalso].
  destruct (step_raised _ _ _ _ _ _ _ Hstep) as (Herr & _).
  apply truediv_raises in Herr. destruct Herr as (_ & Hz & _ & Hnp).
  destruct Hinv as [Ha|[Hv Ha]].
  - destruct (Vehicle.a self) as [f|f]; [discriminate|].
    rewrite mul_np_l, add_np_r in Hnp. discriminate.
  - rewrite Hv, Ha in Hz, Hnp.
    destruct (Globals.sample_time G) as [dt|dt];
      [|rewrite mul_np_r, add_np_r in Hnp; discriminate].
    unfold is_zero, add, mul, lift2 in Hz. cbn [val] in Hz.
    rewrite five_plus_zero_times in Hz. discriminate.
Qed.

(** The constructor and [reset] leave the velocity at 5 and the acceleration
    at 0; a call of [step] leaves a [numpy.float64] acceleration, the load
    force in its dividend being one. *)
Lemma reachable_invariant (np : numpy) (self : Vehicle.t) :
  reachable np self ->
  is_np (Vehicle.a self) = true
  \/ (Vehicle.v self = Py 5 /\ Vehicle.a self = Py 0).
Proof.
  induction 1 as [|self _ _|G throttle incline self _ IH].
  - right. split; reflexivity.
  - right. split; reflexivity.
  - pose proof (step_returns_under_invariant np G throttle incline self IH) as Hret.
    destruct (Vehicle.step np G throttle incline self) as [self'|e self'] eqn:Hstep;
      [|discriminate].
    left. destruct (step_returned _ _ _ _ _ _ Hstep) as (sr & _ & _ & _ & Hacc).
    cbn. revert Hacc. np_rw. now intros [= <-].
Qed.

(** [step] returns when the velocity it divides by is not zero, and on every
    object the class produces. *)
Lemma step_returns
  (np : numpy) (G : Globals.t) (throttle incline : num) (self : Vehicle.t) :
  is_zero (Vehicle.v self + Vehicle.a self * Globals.sample_time G)%num = false
  \/ reachable np self ->
  returns (Vehicle.step np G throttle incline self) = true.
Proof.
  intros [Hv|Hreach].
  - destruct (Vehicle.step np G throttle incline self) as [self'|e self'] eqn:Hstep;
      [reflexivity|].
    destruct (step_raised _ _ _ _ _ _ _ Hstep) as (Herr & _).
    apply truediv_raises in Herr. destruct Herr as (_ & Hz & _). congruence.
  - apply step_returns_under_invariant, (reachable_invariant np), Hreach.
Qed.

(* ================================================================== *)
(** ** The properties of the specification *)
(* ================================================================== *)

(** C1.  [step] first integrates: the new position, velocity and engine speed
    are the old ones plus [sample_time] times the velocity, acceleration and
    engine acceleration the object held when [step] was called ([sample_time]
    being the name as [step] resolves it).  Only then does it compute the
    torque, the load force, the engine acceleration and the wheel speed, and,
    when the slip ratio's division returns, the slip ratio, the tire force and
    the acceleration: all from the integrated values and the inputs.  So the
    new position, velocity and engine speed are the same whatever the
    throttle and the incline of the call. *)
Theorem step_integrates_before_recomputing
  (np : numpy) (G : Globals.t) (throttle incline : num) (self : Vehicle.t) :
  let dt := Globals.sample_time G in
  let self' := state_of (Vehicle.step np G throttle incline self) in
  let te := (throttle * (Vehicle.a_0 self + Vehicle.a_1 self * Vehicle.w_e self'
                         + Vehicle.a_2 self * Vehicle.w_e self' * Vehicle.w_e self'))%num in
  let fl := (Vehicle.c_a self * Vehicle.v self' * Vehicle.v self'
             + Vehicle.c_r1 self * Vehicle.v self'
             + Vehicle.m self * Vehicle.g self * Np (np_sin np (val incline)))%num in
  (Vehicle.x self' = (Vehicle.x self + Vehicle.v self * dt)%num
   /\ Vehicle.v self' = (Vehicle.v self + Vehicle.a self * dt)%num
   /\ Vehicle.w_e self' = (Vehicle.w_e self + Vehicle.w_e_dot self * dt)%num)
  /\ (Vehicle.Te self' = Some te
      /\ Vehicle.Fload self' = Some fl
      /\ truediv (te - Vehicle.GR self * (Vehicle.r_e self * fl))%num (Vehicle.J_e self)
         = Ok (Vehicle.w_e_dot self')
      /\ Vehicle.w_w self' = Some (Vehicle.GR self * Vehicle.w_e self')%num)
  /\ (returns (Vehicle.step np G throttle incline self) = true ->
      exists sr fx : num,
        truediv (Vehicle.GR self * Vehicle.w_e self' * Vehicle.r_e self - Vehicle.v self')%num
                (Vehicle.v self') = Ok sr
        /\ Vehicle.s self' = Some sr
        /\ Vehicle.Fx self' = Some fx
        /\ truediv (fx - fl)%num (Vehicle.m self) = Ok (Vehicle.a self'))
  /\ (forall throttle2 incline2 : num,
        let self2 := state_of (Vehicle.step np G throttle2 incline2 self) in
        Vehicle.x self2 = Vehicle.x self'
        /\ Vehicle.v self2 = Vehicle.v self'
        /\ Vehicle.w_e self2 = Vehicle.w_e self').
Proof.
  intros dt self' te fl.
  destruct (step_always np G throttle incline self)
    as (Hx & Hv & Hw & Hte & Hfl & Hww & Hwd & _).
  fold dt self' in Hx, Hv, Hw, Hte, Hfl, Hww, Hwd.
  subst te fl. rewrite Hv, Hw.
  split; [now repeat split|]. split; [now repeat split|]. split.
  - intros Hret.
    destruct (Vehicle.step np G throttle incline self) as [self1|e self1] eqn:Hstep;
      [|discriminate].
    destruct (step_returned _ _ _ _ _ _ Hstep) as (sr & Hsr & Hs & Hfx & Hacc).
    subst self'. cbn. do 2 eexists.
    split; [exact Hsr|]. split; [exact Hs|]. split; [exact Hfx|exact Hacc].
  - intros throttle2 incline2 self2.
    destruct (step_always np G throttle2 incline2 self) as (Hx2 & Hv2 & Hw2 & _).
    fold dt self2 in Hx2, Hv2, Hw2.
    repeat split; congruence.
Qed.

(** The first call of the notebook: from position 0, velocity 5 and
    acceleration 0 the position becomes [0 + 5*0.01] and the velocity stays 5,
    and the acceleration is computed after them. *)
Lemma step_integrates_before_recomputing_witness :
  let self' :=
    state_of (Vehicle.step taylor notebook_globals (Py 0.2) (Py 0) Vehicle.__init__) in
  Vehicle.x self' = Py 0.05 /\ Vehicle.v self' = Py 5
  /\ exists sr fx : num,
       Vehicle.s self' = Some sr /\ Vehicle.Fx self' = Some fx.
Proof.
  intros self'.
  destruct (step_integrates_before_recomputing
              taylor notebook_globals (Py 0.2) (Py 0) Vehicle.__init__)
    as ((Hx & Hv & _) & _ & Hret & _).
  split; [exact Hx|]. split; [exact Hv|].
  destruct Hret as (sr & fx & _ & Hs & Hfx & _); [reflexivity|].
  exists sr, fx. split; [exact Hs|exact Hfx].
Defined.





(** C6, as the code has it, with the module's [sample_time] bound to a
    number.  The only operation of [step] that can fail is the division of
    the slip ratio, and its divisor is the velocity as just integrated,
    [v + a*sample_time].  When that velocity is not zero (and also on every
    object the class produces), [step] returns, whatever the throttle and the
    incline, and has assigned the five state variables: the three integrals,
    the engine acceleration and the acceleration.  When [step] raises, the
    exception is [ZeroDivisionError], it comes from that division, the
    integrated velocity is a Python number equal to zero, and the object
    holds it with the integrated position and engine speed; the
    acceleration, the slip ratio and the tire force are not assigned: they
    are what they were before the call. *)
Theorem step_raises_only_on_zero_velocity
  (np : numpy) (G : Globals.t) (throttle incline : num) (self : Vehicle.t) :
  let dt := Globals.sample_time G in
  let v1 := (Vehicle.v self + Vehicle.a self * dt)%num in
  (is_zero v1 = false \/ reachable np self ->
   exists self' : Vehicle.t,
     Vehicle.step np G throttle incline self = Return self'
     /\ Vehicle.x self' = (Vehicle.x self + Vehicle.v self * dt)%num
     /\ Vehicle.v self' = v1
     /\ Vehicle.w_e self' = (Vehicle.w_e self + Vehicle.w_e_dot self * dt)%num
     /\ (exists te fl : num,
           Vehicle.Te self' = Some te /\ Vehicle.Fload self' = Some fl
           /\ truediv (te - Vehicle.GR self * (Vehicle.r_e self * fl))%num (Vehicle.J_e self)
              = Ok (Vehicle.w_e_dot self')
           /\ exists fx : num,
                Vehicle.Fx self' = Some fx
                /\ truediv (fx - fl)%num (Vehicle.m self) = Ok (Vehicle.a self')))
  /\ (forall (e : exn) (self' : Vehicle.t),
        Vehicle.step np G throttle incline self = Raise e self' ->
        e = ZeroDivisionError
        /\ is_zero v1 = true /\ is_np v1 = false
        /\ Vehicle.v self' = v1
        /\ truediv (Vehicle.GR self * Vehicle.w_e self' * Vehicle.r_e self - v1)%num v1
           = Err ZeroDivisionError
        /\ Vehicle.x self' = (Vehicle.x self + Vehicle.v self * dt)%num
        /\ Vehicle.w_e self' = (Vehicle.w_e self + Vehicle.w_e_dot self * dt)%num
        /\ Vehicle.a self' = Vehicle.a self
        /\ Vehicle.s self' = Vehicle.s self
        /\ Vehicle.Fx self' = Vehicle.Fx self).
Proof.
  intros dt v1.
  pose proof (step_returns np G throttle incline self) as Hret.
  destruct (step_always np G throttle incline self)
    as (Hx & Hv & Hw & Hte & Hfl & _ & Hwd & _).
  fold dt v1 in Hx, Hv, Hw, Hte, Hfl, Hwd, Hret.
  destruct (Vehicle.step np G throttle incline self) as [self1|e self1] eqn:Hstep;
    cbn in Hx, Hv, Hw, Hte, Hfl, Hwd, Hret.
  - split; [|discriminate].
    intros _. exists self1. split; [reflexivity|].
    destruct (step_returned _ _ _ _ _ _ Hstep) as (sr & _ & _ & Hfx & Hacc).
    fold dt v1 in Hacc.
    repeat (split; [assumption|]).
    do 2 eexists. repeat (split; [eassumption|]).
    eexists. split; [exact Hfx|exact Hacc].
  - destruct (step_raised _ _ _ _ _ _ _ Hstep) as (Herr & Hs & Hfx & Ha).
    fold dt v1 in Herr.
    destruct (truediv_raises _ _ _ Herr) as (-> & Hz & _ & Hnp).
    split; [intros H; specialize (Hret H); discriminate|].
    intros e' self' [= <- <-]. rewrite Hw. repeat split; assumption.
Qed.

(** With velocity 0.04 and acceleration -3.0, Python floats set on a new
    object, the integrated velocity is [0.04 + (-3.0)*0.01], not zero, and
    [step] returns with the position and the velocity integrated. *)
Lemma step_raises_only_on_zero_velocity_witness :
  let self := Vehicle.set_a (Py (-3)) (Vehicle.set_v (Py 0.04) Vehicle.__init__) in
  is_zero (Vehicle.v self + Vehicle.a self * Py 0.01)%num = false
  /\ exists self' : Vehicle.t,
       Vehicle.step taylor notebook_globals (Py 0.2) (Py 0) self = Return self'
       /\ Vehicle.x self' = (Vehicle.x self + Vehicle.v self * Py 0.01)%num
       /\ Vehicle.v self' = (Vehicle.v self + Vehicle.a self * Py 0.01)%num.
Proof.
  intros self. split; [vm_compute; reflexivity|].
  destruct (step_raises_only_on_zero_velocity
              taylor notebook_globals (Py 0.2) (Py 0) self) as (Hret & _).
  destruct Hret as (self' & Hstep & Hx & Hv & _).
  { left. vm_compute; reflexivity. }
  exists self'. split; [exact Hstep|]. split; [exact Hx|exact Hv].
Defined.

(** C6, as stated, fails: a velocity that is not zero when [step] is called
    is not enough.  With velocity 0.03 and acceleration -3.0, Python floats
    set on a new object, the integrated velocity is [0.03 + (-3.0)*0.01 = 0.0]
    and [step] raises [ZeroDivisionError] after seven assignments: the
    position, the velocity, the engine speed and the engine acceleration are
    updated, the acceleration is not, and [s] and [Fx] do not exist. *)
Lemma step_raises_from_a_nonzero_velocity :
  let self := Vehicle.set_a (Py (-3)) (Vehicle.set_v (Py 0.03) Vehicle.__init__) in
  is_zero (Vehicle.v self) = false
  /\ exists self' : Vehicle.t,
       Vehicle.step taylor notebook_globals (Py 0.2) (Py 0) self
       = Raise ZeroDivisionError self'
       /\ Vehicle.v self' = Py 0 /\ Vehicle.a self' = Py (-3)
       /\ Vehicle.s self' = None /\ Vehicle.Fx self' = None.
Proof.
  split; [reflexivity|].
  eexists. split; [vm_compute; reflexivity|]. repeat split.
Qed.

(** The same velocity and acceleration as [numpy.float64], which is what
    [step] itself leaves: the call returns, the slip ratio is infinite and the
    tire force is [F_max]. *)
Example step_at_zero_velocity_with_numpy_values :
  let self := Vehicle.set_a (Np (-3)) (Vehicle.set_v (Np 0.03) Vehicle.__init__) in
  exists self' : Vehicle.t,
    Vehicle.step taylor notebook_globals (Py 0.2) (Py 0) self = Return self'
    /\ Vehicle.v self' = Np 0 /\ Vehicle.s self' = Some (Np infinity)
    /\ Vehicle.Fx self' = Some (Py 10000) /\ Vehicle.a self' = Np 5.
Proof.
  eexists. split; [vm_compute; reflexivity|]. repeat split.
Qed.

(** C4.  The increment of [step] is the module's [sample_time], not the
    attribute [self.sample_time]: with the module's name bound to 0.02 and
    the attribute at the constructor's 0.01, the position after one call from
    the constructor's state is [0 + 5*0.02], where the attribute gives
    [0 + 5*0.01]. *)
Theorem step_reads_the_module_sample_time :
  let G := {| Globals.sample_time := Py 0.02; Globals.alpha_a := None |} in
  let self' := state_of (Vehicle.step taylor G (Py 0.2) (Py 0) Vehicle.__init__) in
  Vehicle.sample_time Vehicle.__init__ = Py 0.01
  /\ Vehicle.x self' = Py 0.1
  /\ (Vehicle.x Vehicle.__init__
      + Vehicle.v Vehicle.__init__ * Vehicle.sample_time Vehicle.__init__)%num = Py 0.05
  /\ Vehicle.v self' = Py 5 /\ Vehicle.w_e self' = Py 100.
Proof.
  cbv zeta. repeat split; vm_compute; reflexivity.
Qed.

(** In general: the three increments are the derivatives times the module's
    [sample_time], and two objects that differ only in [self.sample_time]
    are integrated alike. *)
Lemma step_ignores_the_attribute_sample_time
  (np : numpy) (G : Globals.t) (throttle incline : num) (self1 self2 : Vehicle.t) :
  state self1 = state self2 ->
  let s1 := state_of (Vehicle.step np G throttle incline self1) in
  let s2 := state_of (Vehicle.step np G throttle incline self2) in
  Vehicle.x s1 = Vehicle.x s2 /\ Vehicle.v s1 = Vehicle.v s2
  /\ Vehicle.w_e s1 = Vehicle.w_e s2.
Proof.
  intros [= Hx Hv Ha Hw Hwd] s1 s2.
  destruct (step_always np G throttle incline self1) as (Hx1 & Hv1 & Hw1 & _).
  destruct (step_always np G throttle incline self2) as (Hx2 & Hv2 & Hw2 & _).
  fold s1 in Hx1, Hv1, Hw1. fold s2 in Hx2, Hv2, Hw2.
  rewrite Hx1, Hv1, Hw1, Hx2, Hv2, Hw2, Hx, Hv, Ha, Hw, Hwd. repeat split.
Qed.

(** C5.  [reset] returns, leaves the five state variables at 0, 5, 0, 100
    and 0, which are the constructor's, and changes no other attribute: not
    the thirteen parameters, and not what [step] may have left in [Te],
    [Fload], [w_w], [s] and [Fx].  Driving the reset object through no call
    leaves it as it is. *)
Theorem reset_restores_the_state_only (self : Vehicle.t) :
  exists self' : Vehicle.t,
    Vehicle.reset self = Return self'
    /\ state self' = (Py 0, Py 5, Py 0, Py 100, Py 0)
    /\ state self' = state Vehicle.__init__
    /\ params self' = params self
    /\ scratch self' = scratch self
    /\ forall (np : numpy) (G : Globals.t), run np G [] self' = ([], Return self').
Proof.
  eexists. split; [reflexivity|].
  repeat split.
Qed.

(** C7, as the code has it: [step] changes none of the thirteen parameters,
    whether it returns or raises; besides the five state variables it assigns
    [Te], [Fload] and [w_w], and, when it returns, [s] and [Fx] too. *)
Theorem step_keeps_the_parameters
  (np : numpy) (G : Globals.t) (throttle incline : num) (self : Vehicle.t) :
  let self' := state_of (Vehicle.step np G throttle incline self) in
  params self' = params self
  /\ Vehicle.Te self' <> None /\ Vehicle.Fload self' <> None /\ Vehicle.w_w self' <> None
  /\ (returns (Vehicle.step np G throttle incline self) = true ->
      Vehicle.s self' <> None /\ Vehicle.Fx self' <> None).
Proof.
  intros self'.
  destruct (step_always np G throttle incline self)
    as (_ & _ & _ & Hte & Hfl & Hww & _ & Hp).
  fold self' in Hte, Hfl, Hww, Hp.
  rewrite Hte, Hfl, Hww. repeat split; try assumption; try discriminate.
  all: destruct (Vehicle.step np G throttle incline self) as [self1|e self1] eqn:Hstep;
    [|discriminate].
  all: destruct (step_returned _ _ _ _ _ _ Hstep) as (sr & _ & Hs & Hfx & _).
  all: subst self'; cbn; congruence.
Qed.

Lemma step_keeps_the_parameters_witness :
  let self' :=
    state_of (Vehicle.step taylor notebook_globals (Py 0.2) (Py 0) Vehicle.__init__) in
  params self' = params Vehicle.__init__
  /\ Vehicle.s self' <> None /\ Vehicle.Fx self' <> None.
Proof.
  destruct (step_keeps_the_parameters taylor notebook_globals (Py 0.2) (Py 0)
              Vehicle.__init__) as (Hp & _ & _ & _ & Hs).
  split; [exact Hp|]. apply Hs. reflexivity.
Defined.

(** C7, as stated, fails: [step] does assign attributes that are not state
    variables.  A new object has no [Te], [Fload], [w_w], [s] or [Fx]; after
    one call it has all five. *)
Lemma step_assigns_more_than_the_state :
  let self' :=
    state_of (Vehicle.step taylor notebook_globals (Py 0.2) (Py 0) Vehicle.__init__) in
  other_attributes self' <> other_attributes Vehicle.__init__
  /\ scratch Vehicle.__init__ = [None; None; None; None; None]
  /\ scratch self'
     = [Some (Py 81.600000000000009); Some (Np 34.049999999999997); Some (Py 35);
        Some (Py 1.1000000000000001); Some (Py 10000)].
Proof.
  cbv zeta. split; [|split; vm_compute; reflexivity].
  vm_compute. discriminate.
Qed.

(** C9.  The inputs of a call reach the state with a delay.  After one call
    the position, the velocity and the engine speed, and the parameters, are
    the same for any two input pairs: only the other attributes can differ.
    After a second call, whatever its inputs, the position is still the same
    in the two runs. *)
Theorem inputs_reach_the_state_late
  (np : numpy) (G : Globals.t) (self : Vehicle.t)
  (throttle1 incline1 throttle2 incline2 : num) :
  let run1 := state_of (Vehicle.step np G throttle1 incline1 self) in
  let run2 := state_of (Vehicle.step np G throttle2 incline2 self) in
  (Vehicle.x run1 = Vehicle.x run2
   /\ Vehicle.v run1 = Vehicle.v run2
   /\ Vehicle.w_e run1 = Vehicle.w_e run2
   /\ params run1 = params run2)
  /\ forall (G' : Globals.t) (throttle3 incline3 throttle4 incline4 : num),
       Vehicle.x (state_of (Vehicle.step np G' throttle3 incline3 run1))
       = Vehicle.x (state_of (Vehicle.step np G' throttle4 incline4 run2)).
Proof.
  intros run1 run2.
  destruct (step_always np G throttle1 incline1 self) as (Hx1 & Hv1 & Hw1 & H1).
  destruct (step_always np G throttle2 incline2 self) as (Hx2 & Hv2 & Hw2 & H2).
  fold run1 in Hx1, Hv1, Hw1, H1. fold run2 in Hx2, Hv2, Hw2, H2.
  assert (Hp : params run1 = params run2).
  { destruct H1 as (_ & _ & _ & _ & ->). destruct H2 as (_ & _ & _ & _ & ->).
    reflexivity. }
  split; [repeat split; congruence|].
  intros G' throttle3 incline3 throttle4 incline4.
  destruct (step_always np G' throttle3 incline3 run1) as (-> & _).
  destruct (step_always np G' throttle4 incline4 run2) as (-> & _).
  congruence.
Qed.

(* ================================================================== *)
(** ** Runs of the driver loop *)
(* ================================================================== *)

(** [step] reads the parameters and the five state variables, and nothing
    else of the object: on two objects that agree on them it ends alike,
    and when it returns, with the same object. *)
Lemma step_congruent (np : numpy) (G : Globals.t) (throttle incline : num)
  (self1 self2 : Vehicle.t) :
  params self1 = params self2 -> state self1 = state self2 ->
  match Vehicle.step np G throttle incline self1,
        Vehicle.step np G throttle incline self2 with
  | Return a, Return b => a = b
  | Raise e1 a, Raise e2 b => e1 = e2 /\ params a = params b /\ state a = state b
  | _, _ => False
  end.
Proof.
  intros Hp Hs.
  destruct (step_run np G throttle incline self1) as (wd1 & Hwd1 & H1).
  destruct (step_run np G throttle incline self2) as (wd2 & Hwd2 & H2).
  destruct self1, self2. cbn in Hp, Hs.
  injection Hp as -> -> -> -> -> -> -> -> -> -> -> -> ->.
  injection Hs as -> -> -> -> ->.
  cbn in Hwd1, Hwd2, H1, H2.
  rewrite Hwd1 in Hwd2. injection Hwd2 as <-.
  destruct (truediv _ _) as [sr|e] in H1, H2.
  - destruct H1 as (acc1 & Hacc1 & ->). destruct H2 as (acc2 & Hacc2 & ->).
    rewrite Hacc1 in Hacc2. injection Hacc2 as <-. reflexivity.
  - rewrite H1, H2. repeat split.
Qed.

Lemma run_congruent (np : numpy) (G : Globals.t) (inputs : list (num * num)) :
  forall self1 self2 : Vehicle.t,
    params self1 = params self2 -> state self1 = state self2 ->
    fst (run np G inputs self1) = fst (run np G inputs self2)
    /\ match snd (run np G inputs self1), snd (run np G inputs self2) with
       | Return a, Return b => state a = state b
       | Raise e1 a, Raise e2 b => e1 = e2 /\ state a = state b
       | _, _ => False
       end.
Proof.
  destruct inputs as [|[throttle incline] rest]; intros self1 self2 Hp Hs.
  - cbn. split; [reflexivity|exact Hs].
  - cbn [run].
    pose proof (step_congruent np G throttle incline self1 self2 Hp Hs) as Hstep.
    destruct (Vehicle.step np G throttle incline self1) as [a|e1 a],
             (Vehicle.step np G throttle incline self2) as [b|e2 b];
      try contradiction.
    + subst b. destruct (run np G rest a) as [trajectory [c|e c]]; cbn; auto.
    + destruct Hstep as (-> & _ & Hs'). cbn. auto.
Qed.

Lemma run_keeps_the_parameters (np : numpy) (G : Globals.t) (inputs : list (num * num)) :
  forall self : Vehicle.t,
    params (state_of (snd (run np G inputs self))) = params self.
Proof.
  induction inputs as [|[throttle incline] rest IH]; intros self; [reflexivity|].
  cbn [run].
  destruct (step_always np G throttle incline self) as (_ & _ & _ & _ & _ & _ & _ & Hp).
  destruct (Vehicle.step np G throttle incline self) as [a|e a]; cbn in Hp.
  - specialize (IH a). destruct (run np G rest a) as [trajectory o]. cbn in *.
    congruence.
  - exact Hp.
Qed.

(** C10.  An object that went through any calls of [step] and is then
    reset, and a new object, driven through the same inputs, record the same
    trajectory of the five state variables and end alike, although [reset]
    leaves in [Te], [Fload], [w_w], [s] and [Fx] what the earlier calls put
    there. *)
Theorem reset_object_runs_as_a_new_one
  (np : numpy) (G0 G : Globals.t) (prior inputs : list (num * num)) :
  let used := state_of (snd (run np G0 prior Vehicle.__init__)) in
  let again := state_of (Vehicle.reset used) in
  scratch again = scratch used
  /\ fst (run np G inputs again) = fst (run np G inputs Vehicle.__init__)
  /\ match snd (run np G inputs again), snd (run np G inputs Vehicle.__init__) with
     | Return a, Return b => state a = state b
     | Raise e1 a, Raise e2 b => e1 = e2 /\ state a = state b
     | _, _ => False
     end.
Proof.
  intros used again. split; [reflexivity|].
  apply run_congruent; [|reflexivity].
  transitivity (params used); [reflexivity|].
  apply run_keeps_the_parameters.
Qed.

(* ================================================================== *)
(** ** The incline helper *)
(* ================================================================== *)

Lemma three_sixtieths : truediv (Py 3) (Py 60) = Ok (Py (3 / 60)).
Proof. reflexivity. Qed.

Lemma nine_ninetieths : truediv (Py 9) (Py 90) = Ok (Py (9 / 90)).
Proof. reflexivity. Qed.

(** [alpha] as a chain of tests on its argument; the global is read only
    when no test holds. *)
Lemma alpha_run (np : numpy) (x : num) (G : Globals.t) :
  let b1 := Np (60 / np_cos np (np_arctan np (3 / 60))) in
  let b2 := Np (60 / np_cos np (np_arctan np (3 / 60))
                + 90 / np_cos np (np_arctan np (9 / 90))) in
  fst (alpha np x G)
  = if le x b1 && le (Py 0) x then Ok (Np (np_arctan np (3 / 60)))
    else if lt b1 x && le x b2 then Ok (Np (np_arctan np (9 / 90)))
    else if lt b2 x then Ok (Py 0)
    else name (Globals.alpha_a G).
Proof.
  intros b1 b2. subst b1 b2. unfold alpha, elif_chain, cos, arctan. cbn.
  rewrite ?three_sixtieths, ?nine_ninetieths. cbn. np_rw. cbn.
  unfold ifelse, assign, pass, gt, ge. cbn. np_rw. cbn.
  repeat match goal with
         | |- context [if ?b then _ else _] =>
             match b with
             | le _ _ => destruct b
             | lt _ _ => destruct b
             end; cbn
         end; reflexivity.
Qed.

Section Alpha.

Local Open Scope float_scope.
Local Open Scope py_scope.

(** C8.  The two breakpoints are [b1 = 60/cos(arctan(3/60))] and
    [b2 = b1 + 90/cos(arctan(9/90))].  Whatever the global [alpha_a] holds,
    [alpha(x)] returns [arctan(3/60)] when [0 <= x <= b1], [arctan(9/90)] when
    [b1 < x <= b2], and [0] when [x > b2]; so for [x >= 0] the result is the
    same from any two states of the globals.  That [b1 <= b2], used for the
    last two, is a fact of numpy's [cos] and [arctan], which any faithful
    implementation gives. *)
Theorem alpha_depends_on_the_position_only (np : numpy) (x : num) :
  exists a1 a2 b1 b2 : num,
    (arctan np (3 / 60) = Ok a1 /\ arctan np (9 / 90) = Ok a2
     /\ 60 / cos np (arctan np (3 / 60)) = Ok b1
     /\ 60 / cos np (arctan np (3 / 60)) + 90 / cos np (arctan np (9 / 90)) = Ok b2)
    /\ (le (Py 0) x = true -> le x b1 = true ->
        forall G : Globals.t, fst (alpha np x G) = Ok a1)
    /\ (lt b1 x = true -> le x b2 = true ->
        forall G : Globals.t, fst (alpha np x G) = Ok a2)
    /\ (le b1 b2 = true -> lt b2 x = true ->
        forall G : Globals.t, fst (alpha np x G) = Ok (Py 0))
    /\ (le b1 b2 = true -> le (Py 0) x = true ->
        forall G G' : Globals.t, fst (alpha np x G) = fst (alpha np x G')).
Proof.
  exists (Np (np_arctan np (3 / 60))), (Np (np_arctan np (9 / 90))),
         (Np (60 / np_cos np (np_arctan np (3 / 60)))),
         (Np (60 / np_cos np (np_arctan np (3 / 60))
              + 90 / np_cos np (np_arctan np (9 / 90)))).
  set (b1 := Np (60 / np_cos np (np_arctan np (3 / 60)))).
  set (b2 := Np (60 / np_cos np (np_arctan np (3 / 60))
                 + 90 / np_cos np (np_arctan np (9 / 90)))).
  split; [repeat split|].
  assert (H1 : le (Py 0) x = true -> le x b1 = true ->
               forall G, fst (alpha np x G) = Ok (Np (np_arctan np (3 / 60)))).
  { intros H0 Hb G. rewrite alpha_run. fold b1 b2. now rewrite H0, Hb. }
  assert (H2 : lt b1 x = true -> le x b2 = true ->
               forall G, fst (alpha np x G) = Ok (Np (np_arctan np (9 / 90)))).
  { intros Hlt Hle G. rewrite alpha_run. fold b1 b2.
    now rewrite (lt_not_le _ _ Hlt), Hlt, Hle. }
  assert (H3 : le b1 b2 = true -> lt b2 x = true ->
               forall G, fst (alpha np x G) = Ok (Py 0)).
  { intros Hb Hlt G. rewrite alpha_run. fold b1 b2.
    pose proof (le_lt_trans _ _ _ Hb Hlt) as Hlt1.
    now rewrite (lt_not_le _ _ Hlt1), (lt_not_le _ _ Hlt), Hlt, andb_false_r. }
  repeat (split; [assumption|]).
  intros Hb H0 G G'.
  destruct (le_or_lt _ _ _ _ H0 Hb) as [Hle1|Hlt1].
  - now rewrite !H1.
  - destruct (le_or_lt _ _ _ _ H0 (le_number_r _ _ Hb)) as [Hle2|Hlt2].
    + now rewrite !H2.
    + now rewrite !H3.
Qed.

(** With the stand-ins for numpy the breakpoints are near 60.07 and 150.52:
    positions 10, 70 and 170 fall in the three segments. *)
Lemma alpha_depends_on_the_position_only_witness :
  let G := Globals.set_alpha_a (Py 7) notebook_globals in
  fst (alpha taylor (Py 10) G) = Ok (Np (taylor_arctan (3 / 60)))
  /\ fst (alpha taylor (Py 70) G) = Ok (Np (taylor_arctan (9 / 90)))
  /\ fst (alpha taylor (Py 170) G) = Ok (Py 0)
  /\ fst (alpha taylor (Py 10) G) = fst (alpha taylor (Py 10) notebook_globals).
Proof.
  intros G. split; [|split; [|split]].
  - destruct (alpha_depends_on_the_position_only taylor (Py 10))
      as (a1 & a2 & b1 & b2 & (Ha1 & Ha2 & Hb1 & Hb2) & H1 & _).
    injection Ha1 as <-. injection Hb1 as <-. apply H1; reflexivity.
  - destruct (alpha_depends_on_the_position_only taylor (Py 70))
      as (a1 & a2 & b1 & b2 & (Ha1 & Ha2 & Hb1 & Hb2) & _ & H2 & _).
    injection Ha2 as <-. injection Hb1 as <-. injection Hb2 as <-.
    apply H2; reflexivity.
  - destruct (alpha_depends_on_the_position_only taylor (Py 170))
      as (a1 & a2 & b1 & b2 & (Ha1 & Ha2 & Hb1 & Hb2) & _ & _ & H3 & _).
    injection Hb1 as <-. injection Hb2 as <-. apply H3; reflexivity.
  - destruct (alpha_depends_on_the_position_only taylor (Py 10))
      as (a1 & a2 & b1 & b2 & (Ha1 & Ha2 & Hb1 & Hb2) & _ & _ & _ & H4).
    injection Hb1 as <-. injection Hb2 as <-. apply H4; reflexivity.
Defined.

(** Below zero no test of [alpha] holds, and the result is whatever the
    global holds: a stale incline, or [NameError] when it was never assigned. *)
Example alpha_reads_the_global_below_zero :
  fst (alpha taylor (Py (-1)) (Globals.set_alpha_a (Py 7) notebook_globals)) = Ok (Py 7)
  /\ fst (alpha taylor (Py (-1)) notebook_globals) = Err NameError.
Proof.
  split; vm_compute; reflexivity.
Qed.

End Alpha.

(* ================================================================== *)
(** ** Arrays *)
(* ================================================================== *)

Lemma setitem_in_range (arr : ndarray) (i : nat) (f : float) :
  i < length arr -> exists arr', setitem arr i f = Some arr'.
Proof.
  revert i. induction arr as [|e rest IH]; intros [|j] Hi; cbn in *; try lia.
  - now eexists.
  - destruct (IH j) as (arr' & ->); [lia|]. now eexists.
Qed.

Lemma setitem_out_of_range (arr : ndarray) (i : nat) (f : float) :
  length arr <= i -> setitem arr i f = None.
Proof.
  revert i. induction arr as [|e rest IH]; intros [|j] Hi; cbn in *; try lia; auto.
  rewrite IH by lia. reflexivity.
Qed.

Lemma setitem_length (arr arr' : ndarray) (i : nat) (f : float) :
  setitem arr i f = Some arr' -> length arr' = length arr.
Proof.
  revert i arr'. induction arr as [|e rest IH]; intros [|j] arr'; cbn; try discriminate.
  - now intros [= <-].
  - destruct (setitem rest j f) as [r|] eqn:Hr; [|discriminate].
    intros [= <-]. cbn. f_equal. eapply IH, Hr.
Qed.

Lemma getitem_setitem (arr arr' : ndarray) (i j : nat) (f : float) :
  setitem arr i f = Some arr' ->
  getitem arr' j = if Nat.eqb j i then Some f else getitem arr j.
Proof.
  unfold getitem.
  revert i j arr'. induction arr as [|e rest IH]; intros [|i] j arr'; cbn; try discriminate.
  - intros [= <-]. now destruct j.
  - destruct (setitem rest i f) as [r|] eqn:Hr; [|discriminate].
    intros [= <-]. destruct j as [|j]; cbn; [reflexivity|]. eapply IH, Hr.
Qed.

Lemma getitem_zeros_like (arr : ndarray) (i : nat) :
  getitem (zeros_like arr) i = option_map (fun _ => 0%float) (getitem arr i).
Proof. unfold getitem, zeros_like. apply nth_error_map. Qed.

Lemma getitem_in_range (arr : ndarray) (i : nat) :
  i < length arr -> exists f, getitem arr i = Some f.
Proof.
  intros Hi. unfold getitem. destruct (nth_error arr i) eqn:H; [now eexists|].
  apply nth_error_None in H. lia.
Qed.

Lemma setitem_at (arr : ndarray) (i : nat) (b f : float) :
  getitem arr i = Some b -> exists arr', setitem arr i f = Some arr'.
Proof.
  intros H. apply setitem_in_range. apply nth_error_Some. unfold getitem in H. congruence.
Qed.

Lemma three_tenths_by_five : truediv (Py 0.3) (Py 5) = Ok (Py (0.3 / 5)).
Proof. reflexivity. Qed.

Lemma a_half_by_five : truediv (Py 0.5) (Py 5) = Ok (Py (0.5 / 5)).
Proof. reflexivity. Qed.

Lemma put_at (arr : ndarray) (i : nat) (b : float) (n : num) :
  getitem arr i = Some b ->
  exists arr', put arr i n = Done arr' /\ length arr' = length arr
    /\ forall j, getitem arr' j = if Nat.eqb j i then Some (val n) else getitem arr j.
Proof.
  intros H. destruct (setitem_at arr i b (val n) H) as (arr' & Hset).
  exists arr'. unfold put. rewrite Hset. split; [reflexivity|]. split.
  - eapply setitem_length, Hset.
  - intros j. eapply getitem_setitem, Hset.
Qed.

Lemma throttle_body_run (G : Globals.t) (t_data arr : ndarray) (i : nat)
    (t_i b0 first before : float) :
  getitem t_data i = Some t_i ->
  getitem arr i = Some b0 ->
  (i = 0 /\ first = 0.2%float /\ before = 0.2%float)
  \/ (i <> 0 /\ getitem arr 0 = Some first /\ before = b0) ->
  exists arr',
    throttle_body G t_data i arr = Done arr' /\ length arr' = length arr
    /\ forall j, getitem arr' j
                 = if Nat.eqb j i then Some (throttle_sample G i t_i first before)
                   else getitem arr j.
Proof.
  intros Ht Hb Hcase.
  assert (Hwhile : exists arr1,
    (if Nat.eqb i 0 then put arr i (Py 0.2) else Done arr) = Done arr1
    /\ length arr1 = length arr
    /\ getitem arr1 0 = Some first /\ getitem arr1 i = Some before
    /\ forall j, j <> i -> getitem arr1 j = getitem arr j).
  { destruct Hcase as [(-> & -> & ->)|(Hi & H0 & ->)].
    - destruct (put_at arr 0 b0 (Py 0.2) Hb) as (arr1 & Hput & Hlen & Hget).
      exists arr1. cbn [Nat.eqb]. repeat split; try assumption.
      + now rewrite Hget.
      + now rewrite Hget.
      + intros j Hj. rewrite Hget. destruct j; [congruence|reflexivity].
    - exists arr. destruct i; [congruence|]. now repeat split. }
  destruct Hwhile as (arr1 & Hwhile & Hlen1 & H0 & Hi & Hother).
  unfold throttle_body. rewrite Hwhile.
  unfold and_then, attempt, item at 1, throttle_sample.
  rewrite Ht.
  change (le (Np t_i) (Py 5)) with (t_i <=? 5)%float.
  destruct (t_i <=? 5)%float.
  { unfold item. rewrite H0. unfold value, op2, pdiv, bind, ret.
    rewrite three_tenths_by_five.
    destruct (put_at arr1 i before
                (Np first + Py (0.3 / 5) * int i * Globals.sample_time G)%num Hi)
      as (arr' & -> & Hlen & Hget).
    exists arr'. split; [reflexivity|]. split; [congruence|].
    intros j. rewrite Hget. destruct (Nat.eqb_spec j i); [reflexivity|]. now apply Hother. }
  unfold item at 1. rewrite Ht.
  change (le (Np t_i) (Py 15)) with (t_i <=? 15)%float.
  destruct (t_i <=? 15)%float.
  { destruct (put_at arr1 i before (Py 0.5) Hi) as (arr' & -> & Hlen & Hget).
    exists arr'. split; [reflexivity|]. split; [congruence|].
    intros j. rewrite Hget. destruct (Nat.eqb_spec j i); [reflexivity|]. now apply Hother. }
  unfold item at 1. rewrite Ht.
  change (le (Np t_i) (Py 20)) with (t_i <=? 20)%float.
  destruct (t_i <=? 20)%float.
  { unfold value, op2, pdiv, bind, ret. rewrite a_half_by_five.
    destruct (put_at arr1 i before
                (Py 2 - Py (0.5 / 5) * int i * Globals.sample_time G)%num Hi)
      as (arr' & -> & Hlen & Hget).
    exists arr'. split; [reflexivity|]. split; [congruence|].
    intros j. rewrite Hget. destruct (Nat.eqb_spec j i); [reflexivity|]. now apply Hother. }
  exists arr1. split; [reflexivity|]. split; [assumption|].
  intros j. destruct (Nat.eqb_spec j i) as [->|Hj]; [assumption|]. now apply Hother.
Qed.

Lemma throttle_loop_from (G : Globals.t) (t_data init : ndarray) :
  let first := throttle_sample G 0 (nth 0 t_data 0%float) 0.2 0.2 in
  let expected j :=
    match j with
    | O => first
    | S _ => throttle_sample G j (nth j t_data 0%float) first (nth j init 0%float)
    end in
  length init = length t_data ->
  forall (n k : nat) (arr : ndarray),
    k + n = length t_data ->
    length arr = length t_data ->
    (forall j, j < k -> getitem arr j = Some (expected j)) ->
    (forall j, k <= j -> getitem arr j = getitem init j) ->
    exists out,
      for_range_from (throttle_body G t_data) k n arr = Done out
      /\ length out = length t_data
      /\ forall j, j < length t_data -> getitem out j = Some (expected j).
Proof.
  intros first expected Hinit.
  induction n as [|n IH]; intros k arr Hk Hlen Hdone Htodo.
  - exists arr. cbn. split; [reflexivity|]. split; [assumption|].
    intros j Hj. apply Hdone. lia.
  - cbn [for_range_from].
    destruct (getitem_in_range t_data k) as (t_k & Ht); [lia|].
    destruct (getitem_in_range init k) as (b0 & Hb); [lia|].
    assert (Hnt : nth k t_data 0%float = t_k) by (apply nth_error_nth; exact Ht).
    assert (Hni : nth k init 0%float = b0) by (apply nth_error_nth; exact Hb).
    assert (Hak : getitem arr k = Some b0) by (rewrite Htodo by lia; exact Hb).
    destruct (throttle_body_run G t_data arr k t_k b0
                (match k with O => 0.2%float | S _ => first end)
                (match k with O => 0.2%float | S _ => b0 end) Ht Hak)
      as (arr' & Hbody & Hlen' & Hget).
    { destruct k as [|k']; [left; now repeat split|right].
      split; [discriminate|]. split; [|reflexivity]. apply (Hdone 0). lia. }
    rewrite Hbody. cbn [and_then].
    apply IH; [lia|congruence| |].
    + intros j Hj. rewrite Hget. destruct (Nat.eqb_spec j k) as [->|Hjk].
      * f_equal. subst expected first. cbn beta. destruct k; [now rewrite Hnt|].
        now rewrite Hnt, Hni.
      * apply Hdone. lia.
    + intros j Hj. rewrite Hget. destruct (Nat.eqb_spec j k) as [->|Hjk]; [lia|].
      apply Htodo. lia.
Qed.

(** X1.  The throttle loop, entered with [np.zeros_like(t_data)], ends
    without an exception (no index is out of range) and leaves an array as
    long as [t_data].  Its first element is what the [if] chain computes from
    the 0.2 the [while] wrote: [0.2 + (0.3/5)*0*sample_time] when
    [t_data[0] <= 5].  Every later element [i] is decided by [t_data[i]]
    alone: the rising line from the first element up to 5, 0.5 up to 15,
    the falling line [2 - (0.5/5)*i*sample_time] up to 20, and the zero it
    had when no test holds (a time above 20, or not a number). *)
Theorem throttle_loop_samples (G : Globals.t) (t_data : ndarray) :
  let first := throttle_sample G 0 (nth 0 t_data 0%float) 0.2 0.2 in
  exists out : ndarray,
    throttle_loop G t_data (zeros_like t_data) = Done out
    /\ length out = length t_data
    /\ forall (i : nat) (t_i : float),
         getitem t_data i = Some t_i ->
         getitem out i
         = Some (match i with
                 | O => first
                 | S _ => throttle_sample G i t_i first 0
                 end).
Proof.
  intros first.
  destruct (throttle_loop_from G t_data (zeros_like t_data)) with
    (n := length t_data) (k := 0) (arr := zeros_like t_data)
    as (out & Hrun & Hlen & Hget).
  - apply length_map.
  - reflexivity.
  - apply length_map.
  - intros j Hj. lia.
  - reflexivity.
  - exists out. split; [exact Hrun|]. split; [exact Hlen|].
    intros i t_i Ht.
    assert (Hi : i < length t_data) by (apply nth_error_Some; unfold getitem in Ht; congruence).
    rewrite (Hget i Hi). f_equal. destruct i as [|i]; [reflexivity|].
    rewrite (nth_error_nth _ _ _ Ht).
    assert (Hz : nth (S i) (zeros_like t_data) 0%float = 0%float).
    { apply nth_error_nth. fold (getitem (zeros_like t_data) (S i)).
      rewrite getitem_zeros_like, Ht. reflexivity. }
    now rewrite Hz.
Qed.

(* ================================================================== *)
(** ** More on the incline helper *)
(* ================================================================== *)

(** [alpha] with the globals it leaves. *)
Lemma alpha_full (np : numpy) (x : num) (G : Globals.t) :
  let a1 := Np (np_arctan np (3 / 60)) in
  let a2 := Np (np_arctan np (9 / 90)) in
  let b1 := Np (60 / np_cos np (np_arctan np (3 / 60))) in
  let b2 := Np (60 / np_cos np (np_arctan np (3 / 60))
                + 90 / np_cos np (np_arctan np (9 / 90))) in
  alpha np x G
  = if le x b1 && le (Py 0) x then (Ok a1, Globals.set_alpha_a a1 G)
    else if lt b1 x && le x b2 then (Ok a2, Globals.set_alpha_a a2 G)
    else if lt b2 x then (Ok (Py 0), Globals.set_alpha_a (Py 0) G)
    else (name (Globals.alpha_a G), G).
Proof.
  intros a1 a2 b1 b2. subst a1 a2 b1 b2. unfold alpha, elif_chain, cos, arctan. cbn.
  rewrite ?three_sixtieths, ?nine_ninetieths. cbn. np_rw. cbn.
  unfold ifelse, assign, pass, gt, ge. cbn. np_rw. cbn.
  repeat match goal with
         | |- context [if ?b then _ else _] =>
             match b with
             | le _ _ => destruct b
             | lt _ _ => destruct b
             end; cbn
         end; reflexivity.
Qed.

Lemma alpha_cases (np : numpy) (x : num) (G : Globals.t) :
  (exists n : num, alpha np x G = (Ok n, Globals.set_alpha_a n G))
  \/ alpha np x G = (name (Globals.alpha_a G), G).
Proof.
  rewrite alpha_full.
  repeat match goal with
         | |- context [if ?b then _ else _] => destruct b
         end; eauto.
Qed.

Lemma alpha_keeps_sample_time (np : numpy) (x : num) (G : Globals.t) :
  Globals.sample_time (snd (alpha np x G)) = Globals.sample_time G.
Proof. destruct (alpha_cases np x G) as [(n & ->)| ->]; reflexivity. Qed.

Lemma alpha_binds_its_result (np : numpy) (x : num) (G : Globals.t) (n : num) :
  fst (alpha np x G) = Ok n -> Globals.alpha_a (snd (alpha np x G)) = Some n.
Proof.
  destruct (alpha_cases np x G) as [(n' & ->)| ->]; cbn.
  - now intros [= ->].
  - destruct (Globals.alpha_a G); cbn; [now intros [= ->]|discriminate].
Qed.

Lemma alpha_returns_when_bound (np : numpy) (x : num) (G : Globals.t) :
  Globals.alpha_a G <> None -> exists n : num, fst (alpha np x G) = Ok n.
Proof.
  intros Hb. destruct (alpha_cases np x G) as [(n & ->)| ->]; cbn; [eauto|].
  destruct (Globals.alpha_a G) as [n|]; cbn; [now exists n|congruence].
Qed.

(** X2.  [alpha] never changes [sample_time]; when it returns, the global
    [alpha_a] is bound to the value returned; the only exception it raises is
    the NameError of an unbound [alpha_a], and then the globals are as they
    were; with [alpha_a] bound it returns, whatever the position. *)
Theorem alpha_raises_only_name_error (np : numpy) (x : num) (G : Globals.t) :
  Globals.sample_time (snd (alpha np x G)) = Globals.sample_time G
  /\ match fst (alpha np x G) with
     | Ok n => Globals.alpha_a (snd (alpha np x G)) = Some n
     | Err e => e = NameError /\ Globals.alpha_a G = None /\ snd (alpha np x G) = G
     end
  /\ (Globals.alpha_a G <> None -> exists n : num, fst (alpha np x G) = Ok n).
Proof.
  split; [apply alpha_keeps_sample_time|].
  split; [|apply alpha_returns_when_bound].
  destruct (fst (alpha np x G)) as [n|e] eqn:H.
  - now apply alpha_binds_its_result.
  - destruct (alpha_cases np x G) as [(n & Heq)|Heq]; rewrite Heq in H |- *; cbn in H |- *;
      [discriminate|].
    destruct (Globals.alpha_a G); cbn in H; [discriminate|].
    injection H as <-. repeat split.
Qed.

(** A NaN is in no order with anything. *)
Lemma le_nan_r (p : num) : le p (Py nan) = false.
Proof.
  unfold le. rewrite leb_spec. cbn [val].
  change (Prim2SF nan) with S754_nan.
  unfold SFleb. destruct (Prim2SF (val p)); reflexivity.
Qed.

Lemma le_nan_l (p : num) : le (Py nan) p = false.
Proof. unfold le. rewrite leb_spec. reflexivity. Qed.

Lemma lt_nan_r (p : num) : lt p (Py nan) = false.
Proof.
  unfold lt. rewrite ltb_spec. cbn [val].
  change (Prim2SF nan) with S754_nan.
  unfold SFltb. destruct (Prim2SF (val p)); reflexivity.
Qed.

(** X3.  [alpha] has no [else]: at a position that passes none of its
    three tests (one below zero, or not a number) a call that follows a
    successful one returns what that one returned, the angle of another
    position, and leaves the globals alone. *)
Theorem alpha_repeats_its_last_result (np : numpy) (x1 x2 : num) (G : Globals.t) (n : num) :
  let b1 := Np (60 / np_cos np (np_arctan np (3 / 60))) in
  let b2 := Np (60 / np_cos np (np_arctan np (3 / 60))
                + 90 / np_cos np (np_arctan np (9 / 90))) in
  fst (alpha np x1 G) = Ok n ->
  (le (Py 0) x2 = false /\ lt b1 x2 = false /\ lt b2 x2 = false) \/ x2 = Py nan ->
  alpha np x2 (snd (alpha np x1 G)) = (Ok n, snd (alpha np x1 G)).
Proof.
  intros b1 b2 H1 H2.
  assert (Hn : Globals.alpha_a (snd (alpha np x1 G)) = Some n).
  { now apply alpha_binds_its_result. }
  assert (Hno : le (Py 0) x2 = false /\ lt b1 x2 = false /\ lt b2 x2 = false).
  { destruct H2 as [H2| ->]; [exact H2|].
    now rewrite le_nan_r, !lt_nan_r. }
  destruct Hno as (H0 & Hb1 & Hb2).
  rewrite alpha_full. fold b1 b2.
  rewrite H0, Hb1, Hb2, andb_false_r. cbn. now rewrite Hn.
Qed.

Lemma alpha_repeats_its_last_result_witness :
  exists n : num,
    fst (alpha taylor (Py 10%float) notebook_globals) = Ok n
    /\ le (Py 0%float) (Py (-1)%float) = false
    /\ alpha taylor (Py (-1)%float) (snd (alpha taylor (Py 10%float) notebook_globals))
       = (Ok n, snd (alpha taylor (Py 10%float) notebook_globals)).
Proof.
  eexists. split; [vm_compute; reflexivity|]. split; [reflexivity|].
  apply (alpha_repeats_its_last_result taylor (Py 10%float) (Py (-1)%float) notebook_globals).
  - vm_compute; reflexivity.
  - left. split; [|split]; vm_compute; reflexivity.
Defined.

(* ================================================================== *)
(** ** More on the class *)
(* ================================================================== *)

(** X4.  On an object the class produces, a sequence of calls of [step] of
    any length, with any inputs and any module [sample_time], raises nothing:
    every call returns, the object it ends on is again one the class
    produces, and there is one sample for each input. *)
Theorem run_returns_on_reachable (np : numpy) (G : Globals.t) (inputs : list (num * num)) :
  forall self : Vehicle.t,
    reachable np self ->
    exists self' : Vehicle.t,
      snd (run np G inputs self) = Return self'
      /\ reachable np self'
      /\ length (fst (run np G inputs self)) = length inputs.
Proof.
  induction inputs as [|[throttle incline] rest IH]; intros self Hreach.
  - exists self. now repeat split.
  - cbn [run].
    pose proof (step_returns np G throttle incline self (or_intror Hreach)) as Hret.
    pose proof (reach_step np G throttle incline self Hreach) as Hreach'.
    destruct (Vehicle.step np G throttle incline self) as [self1|e self1]; [|discriminate].
    cbn in Hreach'. destruct (IH self1 Hreach') as (self' & Hrun & Hr & Hlen).
    destruct (run np G rest self1) as [trajectory o]. cbn in *.
    exists self'. repeat split; try assumption. now f_equal.
Qed.

Lemma run_returns_on_reachable_witness :
  let inputs := [(Py 0.2%float, Py 0%float); (Np 0.5%float, Py 0.1%float);
                 (Py 0%float, Py 0%float)] in
  reachable taylor Vehicle.__init__
  /\ exists self' : Vehicle.t,
       snd (run taylor notebook_globals inputs Vehicle.__init__) = Return self'
       /\ reachable taylor self'
       /\ length (fst (run taylor notebook_globals inputs Vehicle.__init__)) = 3.
Proof.
  intros inputs. split; [apply reach_init|].
  apply (run_returns_on_reachable taylor notebook_globals inputs Vehicle.__init__).
  apply reach_init.
Defined.

(** X5.  What [step] does is decided by the twelve physical constants and
    the five state variables of the object (with the inputs and the module's
    [sample_time]): two objects that agree on them, whatever their
    [self.sample_time] and whatever an earlier call left in [Te], [Fload],
    [w_w], [s] and [Fx], both return or both raise the same exception, and
    end with the same state and, on return, the same five computed
    attributes.  Neither call touches [self.sample_time]. *)
Theorem step_never_reads_its_own_sample_time
  (np : numpy) (G : Globals.t) (throttle incline : num) (self1 self2 : Vehicle.t) :
  physical self1 = physical self2 -> state self1 = state self2 ->
  match Vehicle.step np G throttle incline self1,
        Vehicle.step np G throttle incline self2 with
  | Return a, Return b =>
      state a = state b /\ scratch a = scratch b /\ physical a = physical b
      /\ Vehicle.sample_time a = Vehicle.sample_time self1
      /\ Vehicle.sample_time b = Vehicle.sample_time self2
  | Raise e1 a, Raise e2 b =>
      e1 = e2 /\ state a = state b
      /\ Vehicle.sample_time a = Vehicle.sample_time self1
      /\ Vehicle.sample_time b = Vehicle.sample_time self2
  | _, _ => False
  end.
Proof.
  intros Hp Hs.
  destruct (step_run np G throttle incline self1) as (wd1 & Hwd1 & H1).
  destruct (step_run np G throttle incline self2) as (wd2 & Hwd2 & H2).
  destruct self1, self2. cbn in Hp, Hs.
  injection Hp as -> -> -> -> -> -> -> -> -> -> -> ->.
  injection Hs as -> -> -> -> ->.
  cbn in Hwd1, Hwd2, H1, H2.
  rewrite Hwd1 in Hwd2. injection Hwd2 as <-.
  destruct (truediv _ _) as [sr|e] in H1, H2.
  - destruct H1 as (acc1 & Hacc1 & ->). destruct H2 as (acc2 & Hacc2 & ->).
    rewrite Hacc1 in Hacc2. injection Hacc2 as <-. repeat split.
  - rewrite H1, H2. repeat split.
Qed.

Lemma step_never_reads_its_own_sample_time_witness :
  let self1 := Vehicle.__init__ in
  let self2 :=
    {| Vehicle.a_0 := Vehicle.a_0 self1; Vehicle.a_1 := Vehicle.a_1 self1;
       Vehicle.a_2 := Vehicle.a_2 self1; Vehicle.GR := Vehicle.GR self1;
       Vehicle.r_e := Vehicle.r_e self1; Vehicle.J_e := Vehicle.J_e self1;
       Vehicle.m := Vehicle.m self1; Vehicle.g := Vehicle.g self1;
       Vehicle.c_a := Vehicle.c_a self1; Vehicle.c_r1 := Vehicle.c_r1 self1;
       Vehicle.c := Vehicle.c self1; Vehicle.F_max := Vehicle.F_max self1;
       Vehicle.x := Vehicle.x self1; Vehicle.v := Vehicle.v self1;
       Vehicle.a := Vehicle.a self1; Vehicle.w_e := Vehicle.w_e self1;
       Vehicle.w_e_dot := Vehicle.w_e_dot self1;
       Vehicle.sample_time := Py 1%float;
       Vehicle.Te := Some (Py 3%float); Vehicle.Fload := None;
       Vehicle.w_w := None; Vehicle.s := Some (Np 0.5%float); Vehicle.Fx := None |} in
  (physical self1 = physical self2 /\ state self1 = state self2)
  /\ Vehicle.sample_time self1 <> Vehicle.sample_time self2
  /\ match Vehicle.step taylor notebook_globals (Py 0.2%float) (Py 0%float) self1,
           Vehicle.step taylor notebook_globals (Py 0.2%float) (Py 0%float) self2 with
     | Return a, Return b =>
         state a = state b /\ scratch a = scratch b /\ physical a = physical b
         /\ Vehicle.sample_time a = Vehicle.sample_time self1
         /\ Vehicle.sample_time b = Vehicle.sample_time self2
     | Raise e1 a, Raise e2 b =>
         e1 = e2 /\ state a = state b
         /\ Vehicle.sample_time a = Vehicle.sample_time self1
         /\ Vehicle.sample_time b = Vehicle.sample_time self2
     | _, _ => False
     end.
Proof.
  intros self1 self2. split; [split; reflexivity|]. split; [discriminate|].
  apply (step_never_reads_its_own_sample_time taylor notebook_globals
           (Py 0.2%float) (Py 0%float) self1 self2); reflexivity.
Defined.

(* ================================================================== *)
(** ** The loops of the cells *)
(* ================================================================== *)

Lemma run_cons_returned (np : numpy) (G : Globals.t) (throttle incline : num)
    (rest : list (num * num)) (self self1 : Vehicle.t) :
  Vehicle.step np G throttle incline self = Return self1 ->
  snd (run np G ((throttle, incline) :: rest) self) = snd (run np G rest self1).
Proof.
  intros H. cbn [run]. rewrite H. now destruct (run np G rest self1).
Qed.

Lemma run_cons_raised (np : numpy) (G : Globals.t) (throttle incline : num)
    (rest : list (num * num)) (self self1 : Vehicle.t) (e : exn) :
  Vehicle.step np G throttle incline self = Raise e self1 ->
  snd (run np G ((throttle, incline) :: rest) self) = Raise e self1.
Proof. intros H. cbn [run]. now rewrite H. Qed.

Lemma constant_loop_from (np : numpy) (G : Globals.t) (throttle incline : num) :
  forall (n k : nat) (m : Vehicle.t) (arr : ndarray),
    k + n <= length arr ->
    returns (snd (run np G (repeat (throttle, incline) n) m)) = true ->
    exists vd : ndarray,
      for_range_from (constant_body np G throttle incline) k n (m, arr)
      = Done (state_of (snd (run np G (repeat (throttle, incline) n) m)), vd)
      /\ length vd = length arr
      /\ (forall j, j < k -> getitem vd j = getitem arr j)
      /\ (forall i, i < n ->
            getitem vd (k + i)
            = Some (val (Vehicle.v
                 (state_of (snd (run np G (repeat (throttle, incline) i) m)))))).
Proof.
  induction n as [|n IH]; intros k m arr Hk Hret.
  - exists arr. cbn. repeat split; try reflexivity. intros i Hi. lia.
  - cbn [for_range_from repeat] in *. unfold constant_body at 1. cbn [fst snd].
    destruct (setitem_in_range arr k (val (Vehicle.v m))) as (arr1 & Hset); [lia|].
    rewrite Hset.
    destruct (Vehicle.step np G throttle incline m) as [m1|e m1] eqn:Hstep.
    2:{ rewrite (run_cons_raised _ _ _ _ _ _ _ _ Hstep) in Hret. discriminate. }
    rewrite (run_cons_returned _ _ _ _ _ _ _ Hstep) in Hret |- *.
    cbn [and_then].
    pose proof (setitem_length _ _ _ _ Hset) as Hlen1.
    destruct (IH (S k) m1 arr1) as (vd & Hrun & Hlen & Hlow & Hhigh); [lia|exact Hret|].
    exists vd. split; [exact Hrun|]. split; [congruence|]. split.
    + intros j Hj. rewrite Hlow by lia. rewrite (getitem_setitem _ _ _ j _ Hset).
      destruct (Nat.eqb_spec j k); [lia|reflexivity].
    + intros [|i] Hi.
      * rewrite Nat.add_0_r, Hlow by lia. rewrite (getitem_setitem _ _ _ k _ Hset).
        now rewrite Nat.eqb_refl.
      * replace (k + S i) with (S k + i) by lia. rewrite Hhigh by lia.
        cbn [repeat]. now rewrite (run_cons_returned _ _ _ _ _ _ _ Hstep).
Qed.

(** X6.  The loop of the constant-input cell, [v_data[i] = model.v] then
    [model.step(throttle, alpha)], when none of its calls raises: it ends on
    the object that as many calls of [step] with the same two inputs give,
    [v_data] is as long as [t_data], and its element [i] is the velocity
    after [i] calls, so that the first one is the velocity the loop was
    entered with and the velocity after the last call is not recorded. *)
Theorem constant_loop_records_the_velocities
  (np : numpy) (G : Globals.t) (throttle incline : num) (t_data : ndarray)
  (model : Vehicle.t) :
  returns (snd (run np G (repeat (throttle, incline) (length t_data)) model)) = true ->
  exists v_data : ndarray,
    constant_loop np G throttle incline t_data (model, zeros_like t_data)
    = Done (state_of (snd (run np G (repeat (throttle, incline) (length t_data)) model)),
            v_data)
    /\ length v_data = length t_data
    /\ forall i : nat,
         i < length t_data ->
         getitem v_data i
         = Some (val (Vehicle.v
              (state_of (snd (run np G (repeat (throttle, incline) i) model))))).
Proof.
  intros Hret. unfold constant_loop, for_range.
  destruct (constant_loop_from np G throttle incline (length t_data) 0 model
              (zeros_like t_data)) as (vd & Hrun & Hlen & _ & Hget).
  - unfold zeros_like. rewrite length_map. lia.
  - exact Hret.
  - exists vd. split; [exact Hrun|]. split.
    + rewrite Hlen. apply length_map.
    + intros i Hi. now rewrite <- (Hget i Hi).
Qed.

Lemma constant_loop_records_the_velocities_witness :
  let t_data := [0; 0.01; 0.02]%float in
  let calls i := snd (run taylor notebook_globals
                        (repeat (Py 0.2%float, Py 0%float) i) Vehicle.__init__) in
  returns (calls (length t_data)) = true
  /\ exists v_data : ndarray,
       constant_loop taylor notebook_globals (Py 0.2%float) (Py 0%float) t_data
         (Vehicle.__init__, zeros_like t_data)
       = Done (state_of (calls (length t_data)), v_data)
       /\ length v_data = length t_data
       /\ forall i : nat, i < length t_data ->
            getitem v_data i = Some (val (Vehicle.v (state_of (calls i)))).
Proof.
  intros t_data calls. split; [vm_compute; reflexivity|].
  apply (constant_loop_records_the_velocities taylor notebook_globals
           (Py 0.2%float) (Py 0%float) t_data Vehicle.__init__).
  vm_compute; reflexivity.
Defined.

#[local] Arguments alpha : simpl never.

(** One completed round of the ramp loop, read back. *)
Lemma drive_body_done (np : numpy) (k : nat) (c c' : Cell.t) :
  drive_body np k c = Done c' ->
  exists (xd vd : ndarray) (th : float) (a_i : num) (G' : Globals.t) (m : Vehicle.t),
    setitem (Cell.x_data c) k (val (Vehicle.x (Cell.model c))) = Some xd
    /\ getitem (Cell.x_throttle_data c) k = Some th
    /\ alpha np (Py (val (Vehicle.x (Cell.model c)))) (Cell.globals c) = (Ok a_i, G')
    /\ Vehicle.step np G' (Np th) a_i (Cell.model c) = Return m
    /\ setitem (Cell.v_data c) k (val (Vehicle.v m)) = Some vd
    /\ c' = {| Cell.model := m; Cell.globals := G'; Cell.x_data := xd;
               Cell.x_throttle_data := Cell.x_throttle_data c; Cell.v_data := vd |}.
Proof.
  unfold drive_body.
  destruct (setitem (Cell.x_data c) k _) as [xd|] eqn:Hxd; [|discriminate].
  cbn. unfold item, attempt.
  rewrite (getitem_setitem _ _ _ k _ Hxd), Nat.eqb_refl. cbn [val].
  destruct (alpha np _ (Cell.globals c)) as [r G'] eqn:Ha.
  destruct r as [a_i|e]; cbn; [|discriminate].
  destruct (getitem (Cell.x_throttle_data c) k) as [th|] eqn:Hth; [|discriminate].
  destruct (Vehicle.step np G' (Np th) a_i (Cell.model c)) as [m|e m] eqn:Hstep;
    [|discriminate].
  cbn. destruct (setitem (Cell.v_data c) k (val (Vehicle.v m))) as [vd|] eqn:Hvd;
    [|discriminate].
  intros [= <-]. exists xd, vd, th, a_i, G', m. now repeat split.
Qed.

(** One round of the ramp loop completes when the index is inside the three
    arrays, the model is one the class produces, and [alpha] has a value. *)
Lemma drive_body_completes (np : numpy) (k : nat) (c : Cell.t) :
  k < length (Cell.x_data c) -> k < length (Cell.x_throttle_data c) ->
  k < length (Cell.v_data c) ->
  reachable np (Cell.model c) ->
  (exists n, fst (alpha np (Py (val (Vehicle.x (Cell.model c)))) (Cell.globals c)) = Ok n) ->
  exists c' : Cell.t,
    drive_body np k c = Done c'
    /\ length (Cell.x_data c') = length (Cell.x_data c)
    /\ length (Cell.v_data c') = length (Cell.v_data c)
    /\ Cell.x_throttle_data c' = Cell.x_throttle_data c
    /\ reachable np (Cell.model c')
    /\ Globals.alpha_a (Cell.globals c') <> None.
Proof.
  intros Hx Hth Hv Hreach (a_i & Ha).
  unfold drive_body.
  destruct (setitem_in_range (Cell.x_data c) k (val (Vehicle.x (Cell.model c))) Hx)
    as (xd & Hxd).
  rewrite Hxd. cbn. unfold item, attempt.
  rewrite (getitem_setitem _ _ _ k _ Hxd), Nat.eqb_refl. cbn [val].
  pose proof (alpha_binds_its_result np _ _ _ Ha) as Hbound.
  destruct (alpha np _ (Cell.globals c)) as [r G']. cbn in Ha, Hbound. subst r. cbn.
  destruct (getitem_in_range (Cell.x_throttle_data c) k Hth) as (th & Hgt).
  rewrite Hgt.
  pose proof (step_returns np G' (Np th) a_i (Cell.model c) (or_intror Hreach)) as Hret.
  pose proof (reach_step np G' (Np th) a_i (Cell.model c) Hreach) as Hreach'.
  destruct (Vehicle.step np G' (Np th) a_i (Cell.model c)) as [m|e m]; [|discriminate].
  cbn in Hreach' |- *.
  destruct (setitem_in_range (Cell.v_data c) k (val (Vehicle.v m)) Hv) as (vd & Hvd).
  rewrite Hvd. eexists. split; [reflexivity|]. cbn.
  split; [eapply setitem_length, Hxd|]. split; [eapply setitem_length, Hvd|].
  split; [reflexivity|]. split; [exact Hreach'|]. congruence.
Qed.

Lemma alpha_at_the_start (np : numpy) (G : Globals.t) :
  le (Py 0) (Np (60 / np_cos np (np_arctan np (3 / 60)))) = true ->
  exists n, fst (alpha np (Py 0) G) = Ok n.
Proof.
  intros H. rewrite alpha_full. cbv zeta. rewrite H.
  replace (le (Py 0) (Py 0)) with true by reflexivity. cbn. eauto.
Qed.

Lemma drive_loop_from (np : numpy) :
  forall (n k : nat) (c : Cell.t),
    k + n <= length (Cell.x_data c) -> k + n <= length (Cell.x_throttle_data c) ->
    k + n <= length (Cell.v_data c) ->
    reachable np (Cell.model c) ->
    (n = 0 \/ exists a, fst (alpha np (Py (val (Vehicle.x (Cell.model c)))) (Cell.globals c))
                        = Ok a) ->
    exists c' : Cell.t,
      for_range_from (drive_body np) k n c = Done c'
      /\ length (Cell.x_data c') = length (Cell.x_data c)
      /\ length (Cell.v_data c') = length (Cell.v_data c)
      /\ Cell.x_throttle_data c' = Cell.x_throttle_data c
      /\ reachable np (Cell.model c').
Proof.
  induction n as [|n IH]; intros k c Hx Hth Hv Hreach Ha.
  - exists c. now repeat split.
  - destruct Ha as [Ha|Ha]; [discriminate|].
    destruct (drive_body_completes np k c) as (c1 & Hbody & Hx1 & Hv1 & Hth1 & Hr1 & Hb1);
      try lia; try assumption.
    cbn [for_range_from]. rewrite Hbody. cbn [and_then].
    destruct (IH (S k) c1) as (c' & Hrun & Hx' & Hv' & Hth' & Hr'); try lia; try assumption.
    + rewrite Hth1. lia.
    + right. now apply alpha_returns_when_bound.
    + exists c'. split; [exact Hrun|]. repeat split; congruence.
Qed.

(** X7.  The ramp cell on a model the class produces: when [alpha_a] is
    bound, or zero is at most the length of the first ramp (as it is with
    numpy's cosine and arctangent), the cell runs to its end without an
    exception, neither from an index nor from [alpha] nor from [step], for a
    [t_data] of any length and content; its three arrays are as long as
    [t_data], and the model is still one the class produces. *)
Theorem ramp_cell_completes (np : numpy) (model : Vehicle.t) (G : Globals.t)
  (t_data : ndarray) :
  reachable np model ->
  Globals.alpha_a G <> None
  \/ le (Py 0) (Np (60 / np_cos np (np_arctan np (3 / 60)))) = true ->
  exists c : Cell.t,
    ramp_cell np model G t_data = Done c
    /\ length (Cell.x_data c) = length t_data
    /\ length (Cell.x_throttle_data c) = length t_data
    /\ length (Cell.v_data c) = length t_data
    /\ reachable np (Cell.model c).
Proof.
  intros Hreach Ha. unfold ramp_cell. cbn.
  destruct (throttle_loop_from G t_data (zeros_like t_data) (length_map _ _)
              (length t_data) 0 (zeros_like t_data))
    as (thr & Hthr & Hlen & _); try reflexivity; try apply length_map; [intros; lia|].
  unfold throttle_loop, for_range. rewrite Hthr.
  unfold drive_loop, for_range.
  match goal with |- context [for_range_from _ 0 _ ?c0] => set (c := c0) end.
  destruct (drive_loop_from np (length t_data) 0 c) as (c' & Hrun & Hx & Hv & Hth & Hr).
  - subst c; cbn. unfold zeros_like. rewrite length_map. lia.
  - subst c; cbn. lia.
  - subst c; cbn. unfold zeros_like. rewrite length_map. lia.
  - subst c; cbn. apply (reach_reset np model Hreach).
  - right. subst c; cbn. destruct Ha as [Ha|Ha].
    + now apply alpha_returns_when_bound.
    + now apply alpha_at_the_start.
  - exists c'. split; [exact Hrun|]. subst c. cbn in *.
    unfold zeros_like in *. rewrite length_map in *. repeat split; congruence.
Qed.

Lemma ramp_cell_completes_witness :
  let t_data := [0; 0.01; 0.02; 21]%float in
  (reachable taylor Vehicle.__init__
   /\ le (Py 0%float) (Np (60 / np_cos taylor (np_arctan taylor (3 / 60)))%float) = true)
  /\ exists c : Cell.t,
       ramp_cell taylor Vehicle.__init__ notebook_globals t_data = Done c
       /\ length (Cell.x_data c) = length t_data
       /\ length (Cell.x_throttle_data c) = length t_data
       /\ length (Cell.v_data c) = length t_data
       /\ reachable taylor (Cell.model c).
Proof.
  intros t_data. split; [split; [apply reach_init|vm_compute; reflexivity]|].
  apply (ramp_cell_completes taylor Vehicle.__init__ notebook_globals t_data).
  - apply reach_init.
  - right. vm_compute; reflexivity.
Defined.

Lemma val_add (p q : num) : val (p + q)%num = (val p + val q)%float.
Proof. now destruct p, q. Qed.

Lemma val_mul (p q : num) : val (p * q)%num = (val p * val q)%float.
Proof. now destruct p, q. Qed.

(** What the ramp loop leaves in the arrays, from round [k] on: the entries
    below [k] are kept, entry [k] of [x_data] is the position at entry, and
    each later position is the one before it advanced by the velocity the
    model had before that round. *)
Lemma drive_loop_trace (np : numpy) :
  forall (n k : nat) (c c' : Cell.t),
    for_range_from (drive_body np) k n c = Done c' ->
    Globals.sample_time (Cell.globals c') = Globals.sample_time (Cell.globals c)
    /\ (forall j, j < k -> getitem (Cell.x_data c') j = getitem (Cell.x_data c) j
                           /\ getitem (Cell.v_data c') j = getitem (Cell.v_data c) j)
    /\ (0 < n -> getitem (Cell.x_data c') k = Some (val (Vehicle.x (Cell.model c))))
    /\ (forall i, k <= i -> S i < k + n ->
          exists x_i u : float,
            getitem (Cell.x_data c') i = Some x_i
            /\ (if Nat.eqb i k then u = val (Vehicle.v (Cell.model c))
                else getitem (Cell.v_data c') (i - 1) = Some u)
            /\ getitem (Cell.x_data c') (S i)
               = Some (x_i + u * val (Globals.sample_time (Cell.globals c)))%float).
Proof.
  induction n as [|n IH]; intros k c c' Hrun.
  - injection Hrun as <-. repeat split; intros; lia.
  - cbn [for_range_from] in Hrun.
    destruct (drive_body np k c) as [c1|e c1] eqn:Hbody; [|discriminate].
    cbn [and_then] in Hrun.
    destruct (drive_body_done np k c c1 Hbody)
      as (xd & vd & th & a_i & G' & m & Hxd & Hth & Ha & Hstep & Hvd & ->).
    destruct (IH (S k) _ c' Hrun) as (Hdt & Hkeep & Hfirst & Hnext).
    cbn [Cell.model Cell.globals Cell.x_data Cell.v_data] in Hdt, Hkeep, Hfirst, Hnext.
    assert (HG : Globals.sample_time G' = Globals.sample_time (Cell.globals c)).
    { pose proof (alpha_keeps_sample_time np (Py (val (Vehicle.x (Cell.model c))))
                    (Cell.globals c)) as H. now rewrite Ha in H. }
    assert (Hxk : getitem (Cell.x_data c') k = Some (val (Vehicle.x (Cell.model c)))).
    { destruct (Hkeep k) as [-> _]; [lia|].
      now rewrite (getitem_setitem _ _ _ k _ Hxd), Nat.eqb_refl. }
    assert (Hvk : getitem (Cell.v_data c') k = Some (val (Vehicle.v m))).
    { destruct (Hkeep k) as [_ ->]; [lia|].
      now rewrite (getitem_setitem _ _ _ k _ Hvd), Nat.eqb_refl. }
    pose proof (step_always np G' (Np th) a_i (Cell.model c)) as Hst.
    cbv zeta in Hst. rewrite Hstep in Hst. cbn [state_of] in Hst.
    destruct Hst as (Hx & _).
    split; [congruence|]. split; [|split].
    + intros j Hj. destruct (Hkeep j) as [-> ->]; [lia|].
      rewrite (getitem_setitem _ _ _ j _ Hxd), (getitem_setitem _ _ _ j _ Hvd).
      destruct (Nat.eqb_spec j k); [lia|]. now split.
    + intros _. exact Hxk.
    + intros i Hki Hi. destruct (Nat.eqb_spec i k) as [->|Hne].
      * exists (val (Vehicle.x (Cell.model c))), (val (Vehicle.v (Cell.model c))).
        split; [exact Hxk|]. split; [reflexivity|].
        rewrite Hfirst by lia. now rewrite Hx, val_add, val_mul, HG.
      * destruct (Hnext i) as (x_i & u & Hxi & Hu & Hxs); [lia|lia|].
        exists x_i, u. split; [exact Hxi|]. rewrite <- HG. split; [|exact Hxs].
        destruct (Nat.eqb_spec i (S k)) as [->|Hne'].
        -- replace (S k - 1) with k by lia. now rewrite Hvk, Hu.
        -- exact Hu.
Qed.

(** X8.  What the ramp loop records when it runs to its end: [x_data[0]] is
    the position the loop was entered with, and each later position is the
    recorded one before it advanced by one [sample_time] of the velocity the
    model had BEFORE the round in between:
    [x_data[1] = x_data[0] + v*sample_time] with the velocity at entry, and
    [x_data[i+2] = x_data[i+1] + v_data[i]*sample_time], the velocity
    recorded one round earlier, in the floating-point arithmetic of the
    code. *)
Theorem drive_loop_advances_by_the_previous_velocity
  (np : numpy) (t_data : ndarray) (c0 c : Cell.t) :
  drive_loop np t_data c0 = Done c ->
  let dt := val (Globals.sample_time (Cell.globals c0)) in
  (0 < length t_data -> getitem (Cell.x_data c) 0 = Some (val (Vehicle.x (Cell.model c0))))
  /\ (1 < length t_data ->
      getitem (Cell.x_data c) 1
      = Some (val (Vehicle.x (Cell.model c0)) + val (Vehicle.v (Cell.model c0)) * dt)%float)
  /\ forall i : nat, S (S i) < length t_data ->
       exists x_i v_i : float,
         getitem (Cell.x_data c) (S i) = Some x_i
         /\ getitem (Cell.v_data c) i = Some v_i
         /\ getitem (Cell.x_data c) (S (S i)) = Some (x_i + v_i * dt)%float.
Proof.
  intros Hrun dt.
  destruct (drive_loop_trace np (length t_data) 0 c0 c Hrun) as (_ & _ & Hfirst & Hnext).
  split; [exact Hfirst|]. split.
  - intros Hlen. destruct (Hnext 0) as (x_0 & u & Hx0 & Hu & Hx1); [lia|lia|].
    cbn in Hu. subst u. rewrite Hfirst in Hx0 by lia. injection Hx0 as <-. exact Hx1.
  - intros i Hi. destruct (Hnext (S i)) as (x_i & u & Hxi & Hu & Hxs); [lia|lia|].
    cbn in Hu. rewrite Nat.sub_0_r in Hu. now exists x_i, u.
Qed.

Lemma drive_loop_advances_by_the_previous_velocity_witness :
  let t_data := [0; 0.01; 0.02]%float in
  let c0 := {| Cell.model := Vehicle.__init__; Cell.globals := notebook_globals;
               Cell.x_data := zeros_like t_data;
               Cell.x_throttle_data := [0.2; 0.2006; 0.2012]%float;
               Cell.v_data := zeros_like t_data |} in
  exists c : Cell.t,
    drive_loop taylor t_data c0 = Done c
    /\ getitem (Cell.x_data c) 0 = Some 0%float
    /\ getitem (Cell.x_data c) 1 = Some (0 + 5 * 0.01)%float
    /\ exists x_1 v_0 : float,
         getitem (Cell.x_data c) 1 = Some x_1
         /\ getitem (Cell.v_data c) 0 = Some v_0
         /\ getitem (Cell.x_data c) 2 = Some (x_1 + v_0 * 0.01)%float.
Proof.
  intros t_data c0.
  destruct (drive_loop taylor t_data c0) as [c|e c] eqn:Hrun;
    [|vm_compute in Hrun; discriminate].
  exists c. split; [reflexivity|].
  destruct (drive_loop_advances_by_the_previous_velocity taylor t_data c0 c Hrun)
    as (Hfirst & Hsecond & Hnext).
  split; [apply Hfirst; cbn; lia|].
  split; [apply Hsecond; cbn; lia|].
  apply (Hnext 0). cbn; lia.
Defined.

Lemma alpha_raises (np : numpy) (x : num) (G : Globals.t) (e : exn) :
  fst (alpha np x G) = Err e ->
  e = NameError /\ Globals.alpha_a G = None /\ snd (alpha np x G) = G.
Proof.
  destruct (alpha_cases np x G) as [(n & ->)| ->]; cbn; [discriminate|].
  destruct (Globals.alpha_a G); cbn; [discriminate|]. now intros [= <-].
Qed.

(** One round of the ramp loop that ends in an exception, with the index
    inside the arrays. *)
Lemma drive_body_failed (np : numpy) (k : nat) (c c1 : Cell.t) (e : error) :
  k < length (Cell.x_data c) -> k < length (Cell.x_throttle_data c) ->
  k < length (Cell.v_data c) ->
  drive_body np k c = Failed e c1 ->
  (e = Uncaught NameError /\ Globals.alpha_a (Cell.globals c) = None
   /\ Cell.model c1 = Cell.model c /\ Cell.v_data c1 = Cell.v_data c)
  \/ (e = Uncaught ZeroDivisionError /\ Cell.v_data c1 = Cell.v_data c).
Proof.
  intros Hx Hth Hv. unfold drive_body.
  destruct (setitem_in_range (Cell.x_data c) k (val (Vehicle.x (Cell.model c))) Hx)
    as (xd & Hxd).
  rewrite Hxd. cbn. unfold item, attempt.
  rewrite (getitem_setitem _ _ _ k _ Hxd), Nat.eqb_refl. cbn [val].
  pose proof (alpha_raises np (Py (val (Vehicle.x (Cell.model c)))) (Cell.globals c)) as Hr.
  destruct (alpha np _ (Cell.globals c)) as [r G']. cbn in Hr.
  destruct r as [a_i|e']; cbn.
  - destruct (getitem_in_range (Cell.x_throttle_data c) k Hth) as (th & ->).
    pose proof (step_raised np G' (Np th) a_i (Cell.model c)) as Hraised.
    destruct (Vehicle.step np G' (Np th) a_i (Cell.model c)) as [m|e' m].
    + cbn. destruct (setitem_in_range (Cell.v_data c) k (val (Vehicle.v m)) Hv) as (vd & ->).
      discriminate.
    + intros [= <- <-]. right. destruct (Hraised e' m eq_refl) as (Hdiv & _).
      apply truediv_raises in Hdiv. destruct Hdiv as (-> & _). now split.
  - intros [= <- <-]. left. destruct (Hr e' eq_refl) as (-> & Hnone & _). now repeat split.
Qed.

Lemma drive_loop_failed_from (np : numpy) :
  forall (n k : nat) (c c' : Cell.t) (e : error),
    k + n <= length (Cell.x_data c) -> k + n <= length (Cell.x_throttle_data c) ->
    k + n <= length (Cell.v_data c) ->
    for_range_from (drive_body np) k n c = Failed e c' ->
    (e = Uncaught NameError /\ Globals.alpha_a (Cell.globals c) = None
     /\ Cell.model c' = Cell.model c /\ Cell.v_data c' = Cell.v_data c)
    \/ e = Uncaught ZeroDivisionError.
Proof.
  induction n as [|n IH]; intros k c c' e Hx Hth Hv Hrun; [discriminate|].
  cbn [for_range_from] in Hrun.
  destruct (drive_body np k c) as [c1|e1 c1] eqn:Hbody; cbn [and_then] in Hrun.
  - destruct (drive_body_done np k c c1 Hbody)
      as (xd & vd & th & a_i & G' & m & Hxd & _ & Ha & _ & Hvd & ->).
    apply IH in Hrun; cbn [Cell.x_data Cell.x_throttle_data Cell.v_data];
      rewrite ?(setitem_length _ _ _ _ Hxd), ?(setitem_length _ _ _ _ Hvd); try lia.
    destruct Hrun as [(_ & Hnone & _)|Hz]; [|now right].
    cbn in Hnone.
    pose proof (alpha_binds_its_result np (Py (val (Vehicle.x (Cell.model c))))
                  (Cell.globals c) a_i) as Hb.
    rewrite Ha in Hb. cbn in Hb. rewrite Hb in Hnone by reflexivity. discriminate.
  - injection Hrun as <- <-.
    destruct (drive_body_failed np k c c1 e1) as [H|(H & _)]; try lia; try assumption; tauto.
Qed.

(** X9.  How the ramp loop can end early, with arrays at least as long as
    [t_data]: never on an index.  It is the NameError of [alpha], which needs
    [alpha_a] unbound when the loop is entered and so comes in the first
    round, before the model is stepped or a velocity is recorded; or it is
    the ZeroDivisionError of [step]. *)
Theorem drive_loop_fails_only_in_alpha_or_step
  (np : numpy) (t_data : ndarray) (c0 c : Cell.t) (e : error) :
  length t_data <= length (Cell.x_data c0) ->
  length t_data <= length (Cell.x_throttle_data c0) ->
  length t_data <= length (Cell.v_data c0) ->
  drive_loop np t_data c0 = Failed e c ->
  (e = Uncaught NameError /\ Globals.alpha_a (Cell.globals c0) = None
   /\ Cell.model c = Cell.model c0 /\ Cell.v_data c = Cell.v_data c0)
  \/ e = Uncaught ZeroDivisionError.
Proof.
  intros Hx Hth Hv Hrun.
  now apply (drive_loop_failed_from np (length t_data) 0 c0 c e).
Qed.

Lemma drive_loop_fails_only_in_alpha_or_step_witness :
  let t_data := [0; 0.01]%float in
  let c0 := {| Cell.model := Vehicle.set_x (Py (-1)%float) Vehicle.__init__;
               Cell.globals := notebook_globals;
               Cell.x_data := zeros_like t_data;
               Cell.x_throttle_data := [0.2; 0.2006]%float;
               Cell.v_data := zeros_like t_data |} in
  exists (e : error) (c : Cell.t),
    drive_loop taylor t_data c0 = Failed e c
    /\ ((e = Uncaught NameError /\ Globals.alpha_a (Cell.globals c0) = None
         /\ Cell.model c = Cell.model c0 /\ Cell.v_data c = Cell.v_data c0)
        \/ e = Uncaught ZeroDivisionError).
Proof.
  intros t_data c0.
  destruct (drive_loop taylor t_data c0) as [c|e c] eqn:Hrun;
    [vm_compute in Hrun; discriminate|].
  exists e, c. split; [reflexivity|].
  apply (drive_loop_fails_only_in_alpha_or_step taylor t_data c0 c e);
    [cbn; lia|cbn; lia|cbn; lia|exact Hrun].
Defined.

(** [step] on two objects with the same twelve parameters and the same
    state ends alike. *)
Lemma step_alike (np : numpy) (G : Globals.t) (throttle incline : num)
  (self1 self2 : Vehicle.t) :
  physical self1 = physical self2 -> state self1 = state self2 ->
  match Vehicle.step np G throttle incline self1,
        Vehicle.step np G throttle incline self2 with
  | Return a, Return b => physical a = physical b /\ state a = state b
  | Raise e1 a, Raise e2 b => e1 = e2 /\ physical a = physical b /\ state a = state b
  | _, _ => False
  end.
Proof.
  intros Hp Hs.
  destruct (step_run np G throttle incline self1) as (wd1 & Hwd1 & H1).
  destruct (step_run np G throttle incline self2) as (wd2 & Hwd2 & H2).
  destruct self1, self2. cbn in Hp, Hs.
  injection Hp as -> -> -> -> -> -> -> -> -> -> -> ->.
  injection Hs as -> -> -> -> ->.
  cbn in Hwd1, Hwd2, H1, H2.
  rewrite Hwd1 in Hwd2. injection Hwd2 as <-.
  destruct (truediv _ _) as [sr|e] in H1, H2.
  - destruct H1 as (acc1 & Hacc1 & ->). destruct H2 as (acc2 & Hacc2 & ->).
    rewrite Hacc1 in Hacc2. injection Hacc2 as <-. repeat split.
  - rewrite H1, H2. repeat split.
Qed.

Lemma drive_body_alike (np : numpy) (k : nat) (c1 c2 : Cell.t) :
  same_results c1 c2 ->
  match drive_body np k c1, drive_body np k c2 with
  | Done a, Done b => same_results a b
  | Failed e1 a, Failed e2 b => e1 = e2 /\ same_results a b
  | _, _ => False
  end.
Proof.
  destruct c1 as [m1 G1 xd1 th1 vd1], c2 as [m2 G2 xd2 th2 vd2].
  unfold same_results. cbn [Cell.model Cell.globals Cell.x_data Cell.x_throttle_data Cell.v_data].
  intros (-> & -> & -> & -> & Hp & Hs).
  assert (Hx : Vehicle.x m1 = Vehicle.x m2) by (unfold state in Hs; congruence).
  unfold drive_body. cbn [Cell.model Cell.globals Cell.x_data Cell.x_throttle_data Cell.v_data].
  rewrite Hx.
  destruct (setitem xd2 k (val (Vehicle.x m2))) as [xd|]; [|now repeat split].
  cbn. unfold item, attempt.
  destruct (getitem xd k) as [x_k|]; [|now repeat split]. cbn [val].
  destruct (alpha np (Py x_k) G2) as [[a_i|e] G']; cbn; [|now repeat split].
  destruct (getitem th2 k) as [th|]; [|now repeat split].
  pose proof (step_alike np G' (Np th) a_i m1 m2 Hp Hs) as Hstep.
  destruct (Vehicle.step np G' (Np th) a_i m1) as [a|e1 a],
           (Vehicle.step np G' (Np th) a_i m2) as [b|e2 b]; try contradiction.
  - destruct Hstep as (Hp' & Hs'). cbn.
    assert (Hv : Vehicle.v a = Vehicle.v b) by (unfold state in Hs'; congruence).
    rewrite Hv. destruct (setitem vd2 k (val (Vehicle.v b))); now repeat split.
  - destruct Hstep as (-> & Hp' & Hs'). now repeat split.
Qed.

Lemma drive_loop_alike (np : numpy) :
  forall (n k : nat) (c1 c2 : Cell.t),
    same_results c1 c2 ->
    match for_range_from (drive_body np) k n c1, for_range_from (drive_body np) k n c2 with
    | Done a, Done b => same_results a b
    | Failed e1 a, Failed e2 b => e1 = e2 /\ same_results a b
    | _, _ => False
    end.
Proof.
  induction n as [|n IH]; intros k c1 c2 H; [exact H|].
  cbn [for_range_from].
  pose proof (drive_body_alike np k c1 c2 H) as Hbody.
  destruct (drive_body np k c1) as [a|e1 a], (drive_body np k c2) as [b|e2 b];
    try contradiction; cbn [and_then].
  - now apply IH.
  - exact Hbody.
Qed.

(** X10.  The ramp cell resets the model before it drives it, and [step]
    reads neither [self.sample_time] nor what an earlier call stored: on two
    models with the same twelve parameters, whatever their states and
    whatever the earlier cells did to them, the cell ends alike, with the
    same three arrays and the same globals, or with the same exception. *)
Theorem ramp_cell_forgets_the_state
  (np : numpy) (model1 model2 : Vehicle.t) (G : Globals.t) (t_data : ndarray) :
  physical model1 = physical model2 ->
  match ramp_cell np model1 G t_data, ramp_cell np model2 G t_data with
  | Done c1, Done c2 => same_results c1 c2
  | Failed e1 c1, Failed e2 c2 => e1 = e2 /\ same_results c1 c2
  | _, _ => False
  end.
Proof.
  intros Hp. unfold ramp_cell. cbn.
  destruct (throttle_loop G t_data (zeros_like t_data)) as [thr|e thr].
  - apply drive_loop_alike. unfold same_results. cbn.
    repeat split; try reflexivity.
    destruct model1, model2. cbn in Hp |- *. exact Hp.
  - split; [reflexivity|]. unfold same_results. cbn.
    repeat split; try reflexivity.
    destruct model1, model2. cbn in Hp |- *. exact Hp.
Qed.

Lemma ramp_cell_forgets_the_state_witness :
  let t_data := [0; 0.01; 0.02]%float in
  let used := state_of (Vehicle.step taylor notebook_globals (Py 0.9%float) (Py 0.1%float)
                          Vehicle.__init__) in
  (physical used = physical Vehicle.__init__ /\ state used <> state Vehicle.__init__)
  /\ match ramp_cell taylor used notebook_globals t_data,
           ramp_cell taylor Vehicle.__init__ notebook_globals t_data with
     | Done c1, Done c2 => same_results c1 c2
     | Failed e1 c1, Failed e2 c2 => e1 = e2 /\ same_results c1 c2
     | _, _ => False
     end.
Proof.
  intros t_data used. split; [split; [reflexivity|vm_compute; discriminate]|].
  apply (ramp_cell_forgets_the_state taylor used Vehicle.__init__ notebook_globals t_data).
  reflexivity.
Defined.
